(** * ai-document-processor: the blob-processing pipeline

    A shallow embedding of the orchestration of [pipeline/function_app.py],
    of the speech adapter [pipeline/activities/speechToText.py] and of the
    PII-redaction poll loop of [pipeline/function_app-new.py] (the same loop
    is in [testing/test.py]), with the properties of the specification stated
    over it.

    Python values are the JSON fragment the pipeline handles.  Strings are
    byte strings: [lower] acts on the ASCII letters, which is what decides
    membership in the two extension tables of [process_blob]. *)

From Stdlib Require Import String Ascii List Bool Arith NArith ZArith Lia.
From Equations Require Import Equations.
Import ListNotations.
Open Scope string_scope.
Set Warnings "-register-all".

(* ===================================================================== *)
(** * Python values and exceptions *)
(* ===================================================================== *)

Module Py.

(** JSON-shaped values.  A dict keeps insertion order, as in Python. *)
Inductive pyval : Type :=
| VNone
| VBool (b : bool)
| VInt (z : Z)
| VStr (s : string)
| VList (l : list pyval)
| VDict (d : list (string * pyval)).

Definition dict := list (string * pyval).

(** The exceptions the modelled code can raise. *)
Inductive exn : Type :=
| KeyError (key : string)
| IndexError
| TypeError
| AttributeError
| UnboundLocalError (var : string)
| ValueError
| RequestException.

(** Fallible computations: a value or a raised exception. *)
Inductive result (A : Type) : Type :=
| Ok (a : A)
| Raise (e : exn).
Arguments Ok {A} a.
Arguments Raise {A} e.

Definition bind {A B} (r : result A) (k : A -> result B) : result B :=
  match r with
  | Ok a => k a
  | Raise e => Raise e
  end.

Notation "x <- c ;; k" := (bind c (fun x => k))
  (at level 61, c at next level, right associativity).

(** The value bound to [key], if any.  Keys are unique in a Python dict; on
    an association list the first binding of a key is the one that counts. *)
Fixpoint dict_get (d : dict) (key : string) : option pyval :=
  match d with
  | [] => None
  | (k, v) :: rest => if String.eqb k key then Some v else dict_get rest key
  end.

(** [d.get(key, default)] *)
Definition get_default (d : dict) (key : string) (default : pyval) : pyval :=
  match dict_get d key with
  | Some v => v
  | None => default
  end.

(** [d.get(key)] with Python's implicit default [None]. *)
Definition get (d : dict) (key : string) : pyval := get_default d key VNone.

(** [v[key]] on an arbitrary value: [KeyError] on a dict without the key,
    [TypeError] on a value that is not subscriptable by a string. *)
Definition subscript (v : pyval) (key : string) : result pyval :=
  match v with
  | VDict d =>
      match dict_get d key with
      | Some x => Ok x
      | None => Raise (KeyError key)
      end
  | _ => Raise TypeError
  end.

(** [v[0]] on an arbitrary value. *)
Definition first_item (v : pyval) : result pyval :=
  match v with
  | VList (x :: _) => Ok x
  | VList [] => Raise IndexError
  | VStr (String c _) => Ok (VStr (String c ""))
  | VStr "" => Raise IndexError
  | VDict d =>
      (* integer keys never occur in a JSON object *)
      Raise (KeyError "0")
  | _ => Raise TypeError
  end.

(** ** Strings *)

Definition lower_ascii (c : ascii) : ascii :=
  let n := N_of_ascii c in
  if ((65 <=? n) && (n <=? 90))%N then ascii_of_N (n + 32) else c.

(** [s.lower()] on the bytes of the text: the ASCII letters are lowered,
    every other byte is kept.  On ASCII text this is Python's [str.lower()].
    Python also lowers the cased characters beyond ASCII, which are left
    as they are here; none of them lowers to a text made of the ASCII
    letters and digits of the extension tables, so whether the lowered
    extension of a name is in a table is the same either way. *)
Fixpoint lower (s : string) : string :=
  match s with
  | "" => ""
  | String c rest => String (lower_ascii c) (lower rest)
  end.

(** ['c' in s] for a one-character needle. *)
Fixpoint contains_char (c : ascii) (s : string) : bool :=
  match s with
  | "" => false
  | String a rest => Ascii.eqb a c || contains_char c rest
  end.

(** [s.split(sep)] for a one-character separator: never the empty list. *)
Fixpoint split (sep : ascii) (s : string) : list string :=
  match s with
  | "" => [""]
  | String c rest =>
      if Ascii.eqb c sep then "" :: split sep rest
      else match split sep rest with
           | seg :: segs => String c seg :: segs
           | [] => [String c ""]
           end
  end.

(** [l[-1]] on the result of a [split]. *)
Definition last_segment (l : list string) : string := List.last l "".

(** [s.endswith(suffix)]: some tail of [s] is [suffix]. *)
Fixpoint endswith (s suffix : string) : bool :=
  if String.eqb s suffix then true
  else match s with
       | "" => false
       | String _ rest => endswith rest suffix
       end.

(** [x in l] for a list of strings. *)
Definition str_in (x : string) (l : list string) : bool :=
  existsb (String.eqb x) l.

(** ['.' in v] for an arbitrary value [v]: substring test on a string,
    element test on a list, key test on a dict, [TypeError] otherwise. *)
Definition dot_in (v : pyval) : result bool :=
  match v with
  | VStr s => Ok (contains_char "." s)
  | VList l =>
      Ok (existsb (fun x => match x with VStr s => String.eqb s "." | _ => false end) l)
  | VDict d => Ok (existsb (fun kv => String.eqb (fst kv) ".") d)
  | _ => Raise TypeError
  end.

(** [v.lower()]: only strings have the method. *)
Definition py_lower (v : pyval) : result string :=
  match v with
  | VStr s => Ok (lower s)
  | _ => Raise AttributeError
  end.

(** [str(v)] inside an f-string, for the values interpolated here. *)
Definition format_str (v : pyval) : string :=
  match v with
  | VStr s => s
  | VNone => "None"
  | VBool true => "True"
  | VBool false => "False"
  | _ => "<object>"
  end.

End Py.
Export Py.

(* ===================================================================== *)
(** * Configuration, HTTP and the clock *)
(* ===================================================================== *)

Module Env.

(** The [Configuration] class is imported from a module that is not among
    the sources: [get_value key default] is taken as a parameter of the
    model (the second argument is absent in the one-argument call), and so
    is the bearer token its credential hands out. *)
Record Configuration : Type := {
  get_value : string -> option pyval -> pyval;
  get_token : string -> result string
}.

(** The remote services, as the adapters see them.  The n-th GET of a run
    (whatever its URL) answers [get_json n url], the parsed JSON body, or
    raises; it takes [get_latency n] time units.  A POST answers
    [post_json url payload]. *)
Record World : Type := {
  get_json : nat -> pyval -> result pyval;
  get_latency : nat -> N;
  post_json : string -> pyval -> result pyval
}.

(** The state an adapter threads: the wall clock [time.time()], in whole
    time units, the number of GETs issued and the sleeps taken, latest
    first. *)
Record State : Type := {
  clock : N;
  gets : nat;
  sleeps : list N
}.

Definition initial (t : N) : State := {| clock := t; gets := 0; sleeps := [] |}.

(** [requests.get(url, ...).json()] *)
Definition requests_get (w : World) (url : pyval) (st : State)
  : result pyval * State :=
  (get_json w (gets st) url,
   {| clock := (clock st + get_latency w (gets st))%N;
      gets := S (gets st);
      sleeps := sleeps st |}).

(** [time.sleep(d)] *)
Definition sleep (d : N) (st : State) : State :=
  {| clock := (clock st + d)%N; gets := gets st; sleeps := d :: sleeps st |}.

(** Python truthiness of a JSON value. *)
Definition truthy (v : pyval) : bool :=
  match v with
  | VNone => false
  | VBool b => b
  | VInt z => negb (Z.eqb z 0)
  | VStr s => negb (String.eqb s "")
  | VList l => match l with [] => false | _ => true end
  | VDict d => match d with [] => false | _ => true end
  end.

(** [v == "literal"] *)
Definition is_str (v : pyval) (lit : string) : bool :=
  match v with
  | VStr s => String.eqb s lit
  | _ => false
  end.

(** [v.get(key, default)] on an arbitrary value. *)
Definition method_get_default (v : pyval) (key : string) (default : pyval)
  : result pyval :=
  match v with
  | VDict d => Ok (get_default d key default)
  | _ => Raise AttributeError
  end.

(** [v.get(key)] on an arbitrary value. *)
Definition method_get (v : pyval) (key : string) : result pyval :=
  method_get_default v key VNone.

(** The items a [for] loop draws from a value. *)
Definition iter_items (v : pyval) : result (list pyval) :=
  match v with
  | VList l => Ok l
  | VDict d => Ok (map (fun kv => VStr (fst kv)) d)
  | VStr s => Ok (map (fun c => VStr (String c "")) (list_ascii_of_string s))
  | _ => Raise TypeError
  end.

End Env.
Export Env.

(* ===================================================================== *)
(** * The durable orchestration runtime *)
(* ===================================================================== *)

Module Durable.

(** [RetryOptions(first_retry_interval_in_milliseconds, max_number_of_attempts)] *)
Record RetryOptions : Type := {
  first_retry_interval_in_milliseconds : N;
  max_number_of_attempts : nat
}.

(** An orchestrator function is a generator: it yields activity tasks and is
    resumed with their results, until it returns or raises. *)
Inductive orch : Type :=
| Return (v : pyval)
| Throw (e : exn)
| CallActivityWithRetry (name : string) (opts : RetryOptions)
                        (input : pyval) (k : pyval -> orch).

Notation "x <~ 'yield_call_activity_with_retry' ( n , o , i ) ;; k" :=
  (CallActivityWithRetry n o i (fun x => k))
  (at level 61, right associativity).

(** What one attempt of an activity does in a given run. *)
Inductive attempt_result : Type :=
| Succeeds (v : pyval)
| Fails.

(** The outside world of one run: the result and the duration (in
    milliseconds) of every attempt of every activity. *)
Record ActivityWorld : Type := {
  attempt : string -> pyval -> nat -> attempt_result;
  duration : string -> nat -> N
}.

(** One attempt in the history of an instance. *)
Record event : Type := Attempt {
  ev_name : string;
  ev_no : nat;
  ev_start : N;
  ev_finish : N
}.

Inductive call_outcome : Type :=
| Done (v : pyval)
| Exhausted.

(** Modelled from the spec: the retry executor behind
    [context.call_activity_with_retry], which lives in the durable-functions
    runtime and not in the sources.  Section 4.4: a fixed backoff, at most
    [max_number_of_attempts] attempts per call; a call that exhausts them
    surfaces a terminal failure.  [remaining] counts the attempts left,
    [no] numbers the attempt about to start (from 1) and [now] is the clock
    in milliseconds. *)
Fixpoint retry_loop (w : ActivityWorld) (name : string) (input : pyval)
    (interval : N) (remaining : nat) (no : nat) (now : N)
  : call_outcome * list event * N :=
  match remaining with
  | O => (Exhausted, [], now)
  | S more =>
      let finish := (now + duration w name no)%N in
      let ev := Attempt name no now finish in
      match attempt w name input no with
      | Succeeds v => (Done v, [ev], finish)
      | Fails =>
          match more with
          | O => (Exhausted, [ev], finish)
          | S _ =>
              let '(out, evs, t) :=
                retry_loop w name input interval more (S no) (finish + interval)%N in
              (out, ev :: evs, t)
          end
      end
  end.

(** Modelled from the spec: [context.call_activity_with_retry(name,
    retry_options, input)] as the runtime executes it, the first attempt
    starting at [now]. *)
Definition call_activity_with_retry (w : ActivityWorld) (name : string)
    (opts : RetryOptions) (input : pyval) (now : N)
  : call_outcome * list event * N :=
  retry_loop w name input (first_retry_interval_in_milliseconds opts)
             (max_number_of_attempts opts) 1 now.

(** How an instance ends. *)
Inductive run_status : Type :=
| Completed (output : pyval)
| FailedActivity (name : string)
| FailedException (e : exn).

(** Modelled from the spec: the runtime's replay of an orchestrator, which
    resumes the generator with each activity result and fails the instance
    when a call has exhausted its retries (the orchestrator has no handler
    of its own). *)
Fixpoint execute (w : ActivityWorld) (o : orch) (now : N) : run_status * list event :=
  match o with
  | Return v => (Completed v, [])
  | Throw e => (FailedException e, [])
  | CallActivityWithRetry name opts input k =>
      match call_activity_with_retry w name opts input now with
      | (Done v, evs, t) =>
          let '(st, rest) := execute w (k v) t in (st, (evs ++ rest)%list)
      | (Exhausted, evs, _) => (FailedActivity name, evs)
      end
  end.

(** The names of the activities attempted in a history. *)
Definition invoked (evs : list event) : list string := map ev_name evs.

(** Consecutive attempts are separated by at least [gap]. *)
Fixpoint backoff_at_least (gap : N) (evs : list event) : Prop :=
  match evs with
  | e1 :: ((e2 :: _) as rest) =>
      (ev_finish e1 + gap <= ev_start e2)%N /\ (ev_start e1 + gap <= ev_start e2)%N
      /\ backoff_at_least gap rest
  | _ => True
  end.

(** The first attempt of a history starts at [now]. *)
Definition starts_at (now : N) (evs : list event) : Prop :=
  match evs with
  | e :: _ => ev_start e = now
  | [] => True
  end.

(** Every call of an orchestrator goes through the given retry options. *)
Inductive all_calls_with (opts : RetryOptions) : orch -> Prop :=
| acw_return v : all_calls_with opts (Return v)
| acw_throw e : all_calls_with opts (Throw e)
| acw_call name input k :
    (forall v, all_calls_with opts (k v)) ->
    all_calls_with opts (CallActivityWithRetry name opts input k).

End Durable.
Export Durable.

(* ===================================================================== *)
(** * pipeline/function_app.py *)
(* ===================================================================== *)

Module FunctionApp.

Definition FINAL_OUTPUT_CONTAINER (config : Configuration) : pyval :=
  get_value config "FINAL_OUTPUT_CONTAINER" None.

Definition audio_extensions : list string :=
  ["wav"; "mp3"; "opus"; "ogg"; "flac"; "wma"; "aac"; "webm"].

Definition document_extensions : list string :=
  ["pdf"; "docx"; "doc"; "xlsx"; "pptx"; "jpg"; "jpeg"; "png"; "tiff"; "bmp"].

Definition retry_options : RetryOptions := {|
  first_retry_interval_in_milliseconds := 5000;
  max_number_of_attempts := 5
|}.

(** [blob_name.lower().split('.')[-1] if '.' in blob_name else ""] *)
Definition file_extension_of (blob_name : pyval) : result string :=
  has_dot <- dot_in blob_name ;;
  if has_dot : bool then
    lowered <- py_lower blob_name ;;
    Ok (last_segment (split "." lowered))
  else Ok "".

(** [config.get_value(key, "false").lower() == "true"] *)
Definition toggle (config : Configuration) (key : string) : result bool :=
  lowered <- py_lower (get_value config key (Some (VStr "false"))) ;;
  Ok (String.eqb lowered "true").

(** Steps 2 and 3 of [process_blob]: enrichment, then persistence. *)
Definition enrich_and_persist (config : Configuration)
    (sub_orchestration_id : string) (blob_input : dict) (text_result : pyval)
  : orch :=
  let call_aoai_input :=
    VDict [("text_result", text_result);
           ("instance_id", VStr sub_orchestration_id)] in
  aoai_output <~ yield_call_activity_with_retry
                   ("callAoai", retry_options, call_aoai_input) ;;
  match subscript (VDict blob_input) "name" with
  | Raise e => Throw e
  | Ok name =>
      task_result <~ yield_call_activity_with_retry
                       ("writeToBlob", retry_options,
                        VDict [("json_str", aoai_output);
                               ("blob_name", name);
                               ("final_output_container",
                                FINAL_OUTPUT_CONTAINER config)]) ;;
      Return (VDict [("blob", VDict blob_input);
                     ("text_result", aoai_output);
                     ("task_result", task_result)])
  end.

(** The sub-orchestrator [process_blob]; [blob_input] is
    [context.get_input()] and [sub_orchestration_id] is
    [context.instance_id]. *)
Definition process_blob (config : Configuration)
    (sub_orchestration_id : string) (blob_input : dict) : orch :=
  let blob_name := get_default blob_input "name" (VStr "") in
  match file_extension_of blob_name with
  | Raise e => Throw e
  | Ok file_extension =>
  match toggle config "AOAI_MULTI_MODAL" with
  | Raise e => Throw e
  | Ok multi_modal =>
  if multi_modal && str_in file_extension document_extensions then
    let aoai_input :=
      VDict [("name", get blob_input "name");
             ("container", get blob_input "container");
             ("uri", get blob_input "uri");
             ("instance_id", VStr sub_orchestration_id)] in
    CallActivityWithRetry "callAoaiMultiModal" retry_options aoai_input
      (enrich_and_persist config sub_orchestration_id blob_input)
  else
  match toggle config "AI_VISION_ENABLED" with
  | Raise e => Throw e
  | Ok true =>
      (* the branch is [pass]: [text_result] is read unbound in step 2 *)
      Throw (UnboundLocalError "text_result")
  | Ok false =>
  if str_in file_extension audio_extensions then
    CallActivityWithRetry "speechToText" retry_options (VDict blob_input)
      (enrich_and_persist config sub_orchestration_id blob_input)
  else if str_in file_extension document_extensions then
    CallActivityWithRetry "runDocIntel" retry_options (VDict blob_input)
      (enrich_and_persist config sub_orchestration_id blob_input)
  else
    Return (VDict [("blob", VDict blob_input);
                   ("error", VStr ("Unsupported file type: " ++ file_extension));
                   ("status", VStr "skipped")])
  end end end.

(** ** The HTTP trigger *)

(** A request, as far as the trigger reads it: [body_json] is what
    [req.get_json()] parses, [None] when the body is not valid JSON. *)
Record HttpRequest : Type := {
  body_json : option pyval
}.

Inductive HttpResponse : Type :=
| Response (body : string) (status_code : nat)
| CheckStatusResponse (instance_id : string).

(** [req.get_json()] raises [ValueError] on a body that does not parse. *)
Definition req_get_json (req : HttpRequest) : result pyval :=
  match body_json req with
  | Some v => Ok v
  | None => Raise ValueError
  end.

(** The durable client: the instances started so far, oldest first. *)
Definition client_state := list (string * pyval).

Section HttpTrigger.

(** The instance id the runtime gives to the n-th started instance. *)
Variable new_instance_id : nat -> string.

(** [client.start_new(name, client_input=input)] *)
Definition start_new (client : client_state) (name : string) (input : pyval)
  : string * client_state :=
  (new_instance_id (List.length client), (client ++ [(name, input)])%list).

Definition start_orchestrator_http (req : HttpRequest) (client : client_state)
  : result HttpResponse * client_state :=
  let parsed :=
    body <- req_get_json req ;;
    blob_name <- method_get body "name" ;;
    blob_uri <- method_get body "uri" ;;
    Ok (blob_name, blob_uri) in
  match parsed with
  | Raise ValueError => (Ok (Response "Invalid JSON." 400), client)
  | Raise e => (Raise e, client)
  | Ok (blob_name, blob_uri) =>
      let blob_input :=
        VDict [("name", blob_name); ("container", VStr "bronze"); ("uri", blob_uri)] in
      let '(instance_id, client') := start_new client "process_blob" blob_input in
      (Ok (CheckStatusResponse instance_id), client')
  end.

End HttpTrigger.

End FunctionApp.
Export FunctionApp.

(* ===================================================================== *)
(** * pipeline/activities/speechToText.py *)
(* ===================================================================== *)

Module SpeechToText.

(** The activity threads the clock and the request counter, may raise, and
    may poll forever: [None] stands for a run that is still polling when the
    fuel of the model is spent. *)
Definition M (A : Type) : Type := State -> option (result A * State).

Definition ret {A} (a : A) : M A := fun st => Some (Ok a, st).

Definition lift {A} (r : result A) : M A := fun st => Some (r, st).

Definition mbind {A B} (m : M A) (k : A -> M B) : M B :=
  fun st =>
    match m st with
    | None => None
    | Some (Raise e, st') => Some (Raise e, st')
    | Some (Ok a, st') => k a st'
    end.

Notation "x <-- c ;;; k" := (mbind c (fun x => k))
  (at level 61, c at next level, right associativity).

Definition http_get (w : World) (url : pyval) : M pyval :=
  fun st => Some (requests_get w url st).

(** [wait_for_transcription(transcription_url, headers, check_interval)] *)
Fixpoint wait_for_transcription (w : World) (fuel : nat)
    (transcription_url : pyval) (check_interval : N) : M pyval :=
  match fuel with
  | O => fun _ => None
  | S fuel' =>
      status <-- http_get w transcription_url ;;;
      current_status <-- lift (subscript status "status") ;;;
      if is_str current_status "Succeeded" then ret status
      else if is_str current_status "Failed" then
        (* the error that is printed: status.get('properties', {}).get('error', ...) *)
        properties <-- lift (method_get_default status "properties" (VDict [])) ;;;
        _ <-- lift (method_get_default properties "error" (VStr "Unknown error")) ;;;
        ret status
      else
        fun st =>
          wait_for_transcription w fuel' transcription_url check_interval
                                 (sleep check_interval st)
  end.

(** The default of the [check_interval] argument. *)
Definition default_check_interval : N := 10.

Definition api_version : string := "2025-10-15".

Definition payload (blob_uri : pyval) : pyval :=
  VDict [("displayName", VStr "Transcription");
         ("locale", VStr "en-US");
         ("contentUrls", VList [blob_uri]);
         ("properties",
          VDict [("wordLevelTimestampsEnabled", VBool false);
                 ("displayFormWordLevelTimestampsEnabled", VBool false);
                 ("punctuationMode", VStr "DictatedAndAutomatic");
                 ("profanityFilterMode", VStr "Masked");
                 ("timeToLiveHours", VInt 48)])].

(** [f"{endpoint}/speechtotext/transcriptions:submit?api-version={api_version}"] *)
Definition submit_url (config : Configuration) : string :=
  let endpoint := get_value config "AI_SERVICES_ENDPOINT" None in
  format_str endpoint ++ "/speechtotext/transcriptions:submit?api-version="
    ++ api_version.

(** What [run] does once the job has a final status: lines 77 to 83. *)
Definition fetch_text (w : World) (final_status : pyval) : M pyval :=
  links <-- lift (subscript final_status "links") ;;;
  files_url <-- lift (subscript links "files") ;;;
  files_response <-- http_get w files_url ;;;
  values <-- lift (subscript files_response "values") ;;;
  first_file <-- lift (first_item values) ;;;
  file_links <-- lift (subscript first_file "links") ;;;
  content_url <-- lift (subscript file_links "contentUrl") ;;;
  content_response <-- http_get w content_url ;;;
  phrases <-- lift (subscript content_response "combinedRecognizedPhrases") ;;;
  first_phrase <-- lift (first_item phrases) ;;;
  full_text <-- lift (subscript first_phrase "display") ;;;
  ret full_text.

(** The activity [run(blob_input)].  Every exception is logged and raised
    again, so it is the result of the activity. *)
Definition run (config : Configuration) (w : World) (fuel : nat)
    (blob_input : pyval) : M pyval :=
  blob_name <-- lift (method_get blob_input "name") ;;;
  container <-- lift (method_get blob_input "container") ;;;
  blob_uri <-- lift (method_get blob_input "uri") ;;;
  token <-- lift (get_token config "https://cognitiveservices.azure.com/.default") ;;;
  response <-- lift (post_json w (submit_url config) (payload blob_uri)) ;;;
  transcription_url <-- lift (subscript response "self") ;;;
  final_status <-- wait_for_transcription w fuel transcription_url
                                          default_check_interval ;;;
  fetch_text w final_status.

End SpeechToText.

(* ===================================================================== *)
(** * pipeline/function_app-new.py (and the script testing/test.py) *)
(* ===================================================================== *)

Module FunctionAppNew.

Definition max_wait_time : N := 300.

(** The pause between two polls: [time.sleep(2)]. *)
Definition poll_interval : N := 2.

(** The loop over [targets], lines 141 to 146 (lines 115 to 120 of the
    script): [redacted_pdf_url] when the loop ends, [VNone] when no target
    was taken. *)
Fixpoint find_redacted_pdf_url (targets : list pyval) : result pyval :=
  match targets with
  | [] => Ok VNone
  | target :: rest =>
      location <- method_get_default target "location" (VStr "") ;;
      match location with
      | VStr loc =>
          if negb (endswith loc ".json") then Ok location
          else find_redacted_pdf_url rest
      | _ => Raise AttributeError
      end
  end.

(** What the success branch finds before it moves the blob. *)
Inductive selection : Type :=
| NoTaskItems
| NoDocuments
| NoRedactedPdf
| Redacted (redacted_pdf_url : pyval).

(** Lines 134 to 148: from the job result to the redacted artifact. *)
Definition select_redacted (job : pyval) : result selection :=
  tasks <- method_get_default job "tasks" (VDict []) ;;
  items <- method_get tasks "items" ;;
  if truthy items then
    tasks' <- subscript job "tasks" ;;
    items' <- subscript tasks' "items" ;;
    item <- first_item items' ;;
    task_result <- method_get_default item "results" (VDict []) ;;
    documents <- method_get_default task_result "documents" (VList []) ;;
    if truthy documents then
      document <- first_item documents ;;
      targets <- method_get_default document "targets" (VList []) ;;
      target_list <- iter_items targets ;;
      redacted_pdf_url <- find_redacted_pdf_url target_list ;;
      if truthy redacted_pdf_url then Ok (Redacted redacted_pdf_url)
      else Ok NoRedactedPdf
    else Ok NoDocuments
  else Ok NoTaskItems.

(** What the function has logged when the poll loop is over. *)
Inductive report : Type :=
| JobSucceeded (found : selection)
| JobFailed (job : pyval)
| JobCancelled (job : pyval)
| TimedOut
| Error (e : exn).

(** [status in ["succeeded", "failed", "cancelled"]] *)
Definition is_final (status : pyval) : bool :=
  is_str status "succeeded" || is_str status "failed" || is_str status "cancelled".

(** The body of the [if status in [...]] branch, up to the blob move. *)
Definition final_report (status job : pyval) : report :=
  if is_str status "succeeded" then
    match select_redacted job with
    | Ok found => JobSucceeded found
    | Raise e => Error e
    end
  else if is_str status "failed" then JobFailed job
  else JobCancelled job.

(** The state after one poll and the pause that follows it. *)
Definition after_poll (w : World) (operation_url : pyval) (st : State) : State :=
  sleep poll_interval (snd (requests_get w operation_url st)).

(** The clock readings left before the ceiling: the loop variant. *)
Definition budget (start_time : N) (st : State) : nat :=
  N.to_nat (start_time + max_wait_time - clock st).

(** A value together with the equation that names it: keeps the loop test
    in scope where the loop is entered again. *)
Definition inspect {A : Type} (a : A) : {b : A | a = b} := exist _ a eq_refl.

(** The poll loop of [analyze_document_blob], lines 117 to 198:
    [while time.time() - start_time < max_wait_time: ... else: timed out].
    An exception inside it is caught by the handlers of the function and
    logged. *)
Equations? poll (w : World) (operation_url : pyval) (start_time : N) (st : State)
  : report * State by wf (budget start_time st) lt :=
  poll w operation_url start_time st
    with inspect (clock st - start_time <? max_wait_time)%N := {
    | exist _ false _ => (TimedOut, st)
    | exist _ true Hlt =>
        match requests_get w operation_url st with
        | (Raise e, st1) => (Error e, st1)
        | (Ok body, st1) =>
            match subscript body "status" with
            | Raise e => (Error e, st1)
            | Ok status =>
                if is_final status then (final_report status body, st1)
                else poll w operation_url start_time
                          (after_poll w operation_url st)
            end
        end }.
Proof.
  unfold budget, after_poll, sleep, requests_get, max_wait_time, poll_interval in *.
  cbn. apply N.ltb_lt in Hlt. lia.
Qed.

(** The loop as the function enters it: [start_time = time.time()]. *)
Definition poll_status (w : World) (operation_url : pyval) (st : State)
  : report * State :=
  poll w operation_url (clock st) st.

End FunctionAppNew.

(* ===================================================================== *)
(** * Properties as the specification words them, and sample runs *)
(* ===================================================================== *)

Module Stated.

(** The name of the first activity an orchestrator asks for, if any. *)
Definition selected_path (o : orch) : option string :=
  match o with
  | CallActivityWithRetry name _ _ _ => Some name
  | _ => None
  end.

(** The outcome of an unsupported file. *)
Definition skipped_outcome (blob_input : dict) (file_extension : string) : pyval :=
  VDict [("blob", VDict blob_input);
         ("error", VStr ("Unsupported file type: " ++ file_extension));
         ("status", VStr "skipped")].

(** Routing by extension alone, whatever the feature toggles say. *)
Definition routes_by_extension (config : Configuration) (id : string)
    (blob_input : dict) : Prop :=
  forall blob_name ext,
    get_default blob_input "name" (VStr "") = VStr blob_name ->
    file_extension_of (VStr blob_name) = Ok ext ->
    (str_in ext audio_extensions = true ->
       process_blob config id blob_input =
       CallActivityWithRetry "speechToText" retry_options (VDict blob_input)
         (enrich_and_persist config id blob_input)) /\
    (str_in ext document_extensions = true ->
       process_blob config id blob_input =
       CallActivityWithRetry "runDocIntel" retry_options (VDict blob_input)
         (enrich_and_persist config id blob_input)) /\
    (str_in ext audio_extensions = false ->
     str_in ext document_extensions = false ->
       forall w now,
         execute w (process_blob config id blob_input) now =
         (Completed (skipped_outcome blob_input ext), [])).

(** An outcome with a status field saying completed, next to the file
    descriptor, the enrichment output and the persistence result. *)
Definition completed_outcome (blob_input : dict) (aoai_output task_result : pyval)
    (out : pyval) : Prop :=
  subscript out "status" = Ok (VStr "completed") /\
  subscript out "blob" = Ok (VDict blob_input) /\
  subscript out "text_result" = Ok aoai_output /\
  subscript out "task_result" = Ok task_result.

(** Some attempt of the activity on this input produced [v]. *)
Definition succeeded_with (w : ActivityWorld) (name : string) (input v : pyval)
  : Prop :=
  exists no, attempt w name input no = Succeeds v.

(** The job never reaches one of the statuses the document poll loop stops
    at: every poll answers, with a status outside the three. *)
Definition never_final (w : World) : Prop :=
  forall n url, exists body status,
    get_json w n url = Ok body /\
    subscript body "status" = Ok status /\
    FunctionAppNew.is_final status = false.

(** The time-out is reported no later than the ceiling. *)
Definition reports_by_ceiling (w : World) (operation_url : pyval) (st : State)
  : Prop :=
  exists st',
    FunctionAppNew.poll_status w operation_url st = (FunctionAppNew.TimedOut, st') /\
    (clock st' - clock st <= FunctionAppNew.max_wait_time)%N.

(** The statuses after which the speech poll loop returns. *)
Definition stops_on (status : pyval) : bool :=
  is_str status "Succeeded" || is_str status "Failed".

(** The statuses the data model calls terminal for a running job. *)
Definition terminal (status : pyval) : bool :=
  is_str status "Succeeded" || is_str status "Failed" || is_str status "Cancelled".

(** Poll number [n] (counted from the state [st]) answers [body], whose
    status satisfies [final], and no earlier poll does. *)
Definition first_final (final : pyval -> bool) (w : World) (url : pyval)
    (st : State) (n : nat) (body : pyval) : Prop :=
  (exists status,
     get_json w (gets st + n) url = Ok body /\
     subscript body "status" = Ok status /\ final status = true) /\
  forall m, m < n ->
    exists b s,
      get_json w (gets st + m) url = Ok b /\
      subscript b "status" = Ok s /\ final s = false.

(** The error of a failed job can be printed. *)
Definition error_printable (body : pyval) : Prop :=
  exists props, method_get_default body "properties" (VDict []) = Ok (VDict props).

(** The loop returns the answer of poll [n] right after that poll, having
    slept [check_interval] after each earlier one. *)
Definition returns_at (w : World) (url : pyval) (check_interval : N)
    (st : State) (n : nat) (body : pyval) : Prop :=
  forall fuel, n < fuel ->
    exists st',
      SpeechToText.wait_for_transcription w fuel url check_interval st
        = Some (Ok body, st') /\
      gets st' = gets st + S n /\
      sleeps st' = (repeat check_interval n ++ sleeps st)%list.

(** The loop returns at the first poll whose status satisfies [final]. *)
Definition returns_when (final : pyval -> bool) (w : World) (url : pyval)
    (check_interval : N) (st : State) : Prop :=
  forall n body,
    first_final final w url st n body ->
    returns_at w url check_interval st n body.

(** A target whose location ends with the JSON suffix. *)
Definition json_target (target : pyval) : Prop :=
  exists loc,
    method_get_default target "location" (VStr "") = Ok (VStr loc) /\
    endswith loc ".json" = true.

(** The first activity call of an orchestrator: its name and its input. *)
Definition first_call (o : orch) : option (string * pyval) :=
  match o with
  | CallActivityWithRetry name _ input _ => Some (name, input)
  | _ => None
  end.

(** The text holds ASCII characters only.  On such text the byte-wise
    [lower] is Python's [str.lower()]. *)
Fixpoint ascii_only (s : string) : bool :=
  match s with
  | "" => true
  | String c rest => (N_of_ascii c <? 128)%N && ascii_only rest
  end.


(** The job result lists [targets] for its first document: the targets of
    the first document of the first task item. *)
Definition job_targets (job : dict) (targets : list pyval) : Prop :=
  exists tasks item other_items results doc other_documents,
    dict_get job "tasks" = Some (VDict tasks) /\
    dict_get tasks "items" = Some (VList (VDict item :: other_items)) /\
    dict_get item "results" = Some (VDict results) /\
    dict_get results "documents" = Some (VList (VDict doc :: other_documents)) /\
    dict_get doc "targets" = Some (VList targets).

(** The adapter selects the first target whose location does not end with
    the JSON suffix, whatever that location is. *)
Definition takes_first_non_json (job : dict) : Prop :=
  forall json_targets target others loc,
    job_targets job (json_targets ++ target :: others)%list ->
    Forall json_target json_targets ->
    method_get_default target "location" (VStr "") = Ok (VStr loc) ->
    endswith loc ".json" = false ->
    FunctionAppNew.select_redacted (VDict job) =
      Ok (FunctionAppNew.Redacted (VStr loc)).

(** The speech activity has no job to poll: its input is not a dict, or no
    token is handed out, or the submission raises, or its answer holds no
    job URL under "self". *)
Definition no_job (config : Configuration) (w : World) (blob_input : pyval) (e : exn)
  : Prop :=
  ((forall d, blob_input <> VDict d) /\ e = AttributeError) \/
  exists d,
    blob_input = VDict d /\
    (get_token config "https://cognitiveservices.azure.com/.default" = Raise e \/
     exists token,
       get_token config "https://cognitiveservices.azure.com/.default" = Ok token /\
       (post_json w (SpeechToText.submit_url config)
                  (SpeechToText.payload (get d "uri")) = Raise e \/
        exists response,
          post_json w (SpeechToText.submit_url config)
                    (SpeechToText.payload (get d "uri")) = Ok response /\
          subscript response "self" = Raise e)).

End Stated.
Export Stated.

Module Samples.

(** A configuration with the given toggles, everything else unset. *)
Definition config_with (multi_modal vision : string) : Configuration := {|
  get_value := fun key default =>
    if String.eqb key "AOAI_MULTI_MODAL" then VStr multi_modal
    else if String.eqb key "AI_VISION_ENABLED" then VStr vision
    else if String.eqb key "FINAL_OUTPUT_CONTAINER" then VStr "final"
    else if String.eqb key "AI_SERVICES_ENDPOINT" then VStr "https://ai.example"
    else match default with Some v => v | None => VNone end;
  get_token := fun _ => Ok "token"
|}.

Definition plain_config : Configuration := config_with "false" "false".
Definition multimodal_config : Configuration := config_with "True" "false".

Definition blob (name : string) : dict :=
  [("name", VStr name); ("container", VStr "bronze");
   ("uri", VStr ("https://store.example/bronze/" ++ name))].

(** Every activity succeeds at once: transcription, enrichment,
    persistence. *)
Definition happy_world : ActivityWorld := {|
  attempt := fun name _ _ =>
    if String.eqb name "speechToText" then Succeeds (VStr "hello world")
    else if String.eqb name "callAoai" then Succeeds (VStr "Summary: greeting")
    else if String.eqb name "writeToBlob" then Succeeds (VStr "final/call_42.json")
    else Succeeds (VStr "text");
  duration := fun _ _ => 100%N
|}.

(** Every activity fails twice, then succeeds. *)
Definition flaky_world : ActivityWorld := {|
  attempt := fun _ _ no => if (no <=? 2)%nat then Fails else Succeeds (VStr "text");
  duration := fun _ _ => 100%N
|}.

(** Every attempt fails. *)
Definition broken_world : ActivityWorld := {|
  attempt := fun _ _ _ => Fails;
  duration := fun _ _ => 100%N
|}.

Definition status_body (status : string) : pyval :=
  VDict [("status", VStr status);
         ("links", VDict [("files", VStr "https://ai.example/files")])].

(** A job that is always running; the first poll takes one time unit. *)
Definition slow_running_world : World := {|
  get_json := fun _ _ => Ok (status_body "running");
  get_latency := fun n => match n with O => 1%N | S _ => 0%N end;
  post_json := fun _ _ => Raise RequestException
|}.

(** A job that is always running, with instantaneous requests. *)
Definition running_world : World := {|
  get_json := fun _ _ => Ok (status_body "running");
  get_latency := fun _ => 0%N;
  post_json := fun _ _ => Raise RequestException
|}.

(** A transcription job that was cancelled. *)
Definition cancelled_world : World := {|
  get_json := fun _ _ => Ok (status_body "Cancelled");
  get_latency := fun _ => 0%N;
  post_json := fun _ _ => Ok (VDict [("self", VStr "https://ai.example/job")])
|}.

Definition files_body : pyval :=
  VDict [("values",
          VList [VDict [("links", VDict [("contentUrl", VStr "https://ai.example/c0")])];
                 VDict [("links", VDict [("contentUrl", VStr "https://ai.example/c1")])]])].

Definition content_body : pyval :=
  VDict [("combinedRecognizedPhrases",
          VList [VDict [("display", VStr "hello world")];
                 VDict [("display", VStr "second channel")]])].

(** A transcription job that runs for two polls and then succeeds; the
    next two requests fetch the file list and the first file. *)
Definition transcribing_world : World := {|
  get_json := fun n _ =>
    match n with
    | 0 | 1 => Ok (status_body "Running")
    | 2 => Ok (status_body "Succeeded")
    | 3 => Ok files_body
    | _ => Ok content_body
    end;
  get_latency := fun _ => 1%N;
  post_json := fun _ _ => Ok (VDict [("self", VStr "https://ai.example/job")])
|}.

Definition target (location : string) : pyval := VDict [("location", VStr location)].

Definition new_instance_id (n : nat) : string :=
  match n with O => "instance-0" | _ => "instance-n" end.

End Samples.

(* ===================================================================== *)
(** * More of Python's string methods *)
(* ===================================================================== *)

Module PyStr.

(** The rest of [s] after the prefix [p], when [s.startswith(p)]. *)
Fixpoint strip_prefix (p s : string) : option string :=
  match p with
  | "" => Some s
  | String a p' =>
      match s with
      | "" => None
      | String b s' => if Ascii.eqb a b then strip_prefix p' s' else None
      end
  end.

(** [s.partition(sep)] when [sep] occurs in [s]: what is before and what is
    after its first occurrence. *)
Fixpoint partition (sep s : string) : option (string * string) :=
  match strip_prefix sep s with
  | Some after => Some ("", after)
  | None =>
      match s with
      | "" => None
      | String c rest =>
          match partition sep rest with
          | Some (before, after) => Some (String c before, after)
          | None => None
          end
      end
  end.

Definition inspect {A : Type} (a : A) : {b : A | a = b} := exist _ a eq_refl.

(** What is after the first occurrence of a separator that is not empty is
    shorter than the whole. *)
Ltac partition_decreases :=
  match goal with
  | H : partition (String ?c ?sep) ?s = Some (?before, ?after) |- _ =>
      clear - H;
      assert (P : forall p t r, strip_prefix p t = Some r ->
                                String.length t = String.length p + String.length r)
        by (intros p; induction p as [|a p IHp]; intros [|b t] r E; simpl in E;
            try discriminate; try (inversion E; reflexivity);
            destruct (Ascii.eqb a b); [|discriminate];
            simpl; now rewrite (IHp _ _ E));
      revert before H;
      induction s as [|x s IHs]; intros before H; cbn [partition] in H;
      [ destruct (strip_prefix (String c sep) "") eqn:E; [|discriminate];
        apply P in E; simpl in E; lia
      | destruct (strip_prefix (String c sep) (String x s)) eqn:E;
        [ inversion H; subst; apply P in E; simpl in *; lia
        | destruct (partition (String c sep) s) as [[b' a']|] eqn:E2;
          [ inversion H; subst; specialize (IHs _ eq_refl); simpl; lia
          | discriminate ] ] ]
  end.

(** [s.split(sep)] for the separator [String c sep], which is not empty. *)
Equations? split_at (c : ascii) (sep : string) (s : string) : list string
  by wf (String.length s) lt :=
  split_at c sep s with inspect (partition (String c sep) s) := {
    | exist _ None _ => [s]
    | exist _ (Some (before, after)) Hcut => before :: split_at c sep after }.
Proof. partition_decreases. Qed.

(** [s.replace(old, new)] for the pattern [String c old], which is not
    empty: every occurrence, left to right, without overlap. *)
Equations? replace_at (c : ascii) (old : string) (new s : string) : string
  by wf (String.length s) lt :=
  replace_at c old new s with inspect (partition (String c old) s) := {
    | exist _ None _ => s
    | exist _ (Some (before, after)) Hcut =>
        (before ++ new ++ replace_at c old new after)%string }.
Proof. partition_decreases. Qed.

(** [s.split(sep)]: an empty separator is a [ValueError]. *)
Definition py_split (sep s : string) : result (list string) :=
  match sep with
  | "" => Raise ValueError
  | String c sep' => Ok (split_at c sep' s)
  end.

(** [s.replace(old, new)]: an empty pattern matches before every character
    and at the end. *)
Definition py_replace (old new s : string) : string :=
  match old with
  | "" => (fix between (t : string) : string :=
             match t with
             | "" => new
             | String a t' => (new ++ String a (between t'))%string
             end) s
  | String c old' => replace_at c old' new s
  end.

(** [l[1]] *)
Definition second_item {A} (l : list A) : result A :=
  match nth_error l 1 with
  | Some x => Ok x
  | None => Raise IndexError
  end.

End PyStr.
Export PyStr.

(* ===================================================================== *)
(** * pipeline/function_app-new.py: the whole of [analyze_document_blob] *)
(* ===================================================================== *)

Module AnalyzeDocumentBlob.
Import FunctionAppNew.

(** The response to the job submission: status code and headers. *)
Record Submission : Type := {
  status_code : nat;
  headers : list (string * string)
}.

(** [response.headers[name]]: the header names of a response compare
    without regard to case. *)
Fixpoint header (hs : list (string * string)) (name : string) : result string :=
  match hs with
  | [] => Raise (KeyError name)
  | (k, v) :: rest =>
      if String.eqb (lower k) (lower name) then Ok v else header rest name
  end.

(** What the function reaches outside itself: the process environment, the
    managed identity, the language service (submission and polls). *)
Record Service : Type := {
  environ : string -> option string;
  language_token : result string;
  post : string -> pyval -> result Submission;
  polls : World
}.

(** The requests the function has made before it polls. *)
Inductive effect : Type :=
| TokenRequested
| JobSubmitted (submit_url : string) (payload : pyval).

(** How a run of the function ends.  [Moved blob_path new_blob_name]
    stands for the blob move the function then carries out through the
    storage client (copy [blob_path] to [new_blob_name] at the root of the
    target container, wait for the copy, delete [blob_path]); the storage
    client itself is outside the model. *)
Inductive outcome : Type :=
| SettingMissing (variable : string)
| NotAccepted (code : nat)
| RequestError
| UnexpectedError (e : exn)
| Polled (r : report)
| Moved (blob_path new_blob_name : string).

(** [os.environ.get(name, default)] *)
Definition environ_get (svc : Service) (name default : string) : string :=
  match environ svc name with
  | Some v => v
  | None => default
  end.

(** [not os.environ.get(name)]: unset, or set to the empty string. *)
Definition unset (svc : Service) (name : string) : bool :=
  match environ svc name with
  | Some v => String.eqb v ""
  | None => true
  end.

(** The two handlers at the end of the function. *)
Definition handled (e : exn) : outcome :=
  match e with
  | RequestException => RequestError
  | _ => UnexpectedError e
  end.

(** [blob.name.split('/')[-1]] *)
Definition blob_name_of (path : string) : string :=
  last_segment (split "/" path).

Definition api_version : string := "2024-11-15-preview".

Definition submit_url (language_endpoint : string) : string :=
  language_endpoint ++ "/language/analyze-documents/jobs?api-version=" ++ api_version.

Definition payload (blob_name source_blob_url target_container_url : string) : pyval :=
  VDict [("displayName", VStr ("PII Redaction - " ++ blob_name));
         ("analysisInput",
          VDict [("documents",
                  VList [VDict [("language", VStr "en-US");
                                ("id", VStr "doc-1");
                                ("source", VDict [("location", VStr source_blob_url)]);
                                ("target", VDict [("location", VStr target_container_url)])]])]);
         ("tasks",
          VList [VDict [("kind", VStr "PiiEntityRecognition");
                        ("taskName", VStr "Redact PII");
                        ("parameters",
                         VDict [("redactionPolicy", VDict [("policyKind", VStr "entityMask")]);
                                ("excludeExtractionData", VBool true)])]])].

(** [response.raise_for_status()]: client and server errors raise. *)
Definition raises_for_status (code : nat) : bool :=
  (400 <=? code)%nat && (code <? 600)%nat.

(** Lines 162 and 163: the name of the redacted copy at the root. *)
Definition new_blob_name_of (blob_name : string) : string :=
  let file_extension :=
    if contains_char "." blob_name then last_segment (split "." blob_name)
    else "pdf" in
  py_replace ("." ++ file_extension) ("_redacted." ++ file_extension) blob_name.

(** Line 158: the path of the redacted file inside the target container. *)
Definition blob_path_of (storage_account_url target_container redacted_pdf_url : string)
  : result string :=
  parts <- py_split (storage_account_url ++ "/" ++ target_container ++ "/")
                    redacted_pdf_url ;;
  second_item parts.

(** Lines 148 to 164, for the artifact the poll loop has found. *)
Definition move_plan (storage_account_url target_container blob_name : string)
    (redacted_pdf_url : pyval) : outcome :=
  match redacted_pdf_url with
  | VStr url =>
      match blob_path_of storage_account_url target_container url with
      | Ok blob_path => Moved blob_path (new_blob_name_of blob_name)
      | Raise e => handled e
      end
  | _ => handled AttributeError
  end.

(** [analyze_document_blob(blob)], [path] being [blob.name]: the outcome,
    the requests made before polling, and the state of the polling. *)
Definition analyze_document_blob (svc : Service) (path : string) (st : State)
  : outcome * list effect * State :=
  let source_container := environ_get svc "SOURCE_CONTAINER" "bronze" in
  let target_container := environ_get svc "TARGET_CONTAINER" "silver" in
  if unset svc "LANGUAGE_ENDPOINT" then (SettingMissing "LANGUAGE_ENDPOINT", [], st)
  else if unset svc "STORAGE_ACCOUNT_URL" then (SettingMissing "STORAGE_ACCOUNT_URL", [], st)
  else
    let language_endpoint := environ_get svc "LANGUAGE_ENDPOINT" "" in
    let storage_account_url := environ_get svc "STORAGE_ACCOUNT_URL" "" in
    let blob_name := blob_name_of path in
    let source_blob_url :=
      storage_account_url ++ "/" ++ source_container ++ "/" ++ blob_name in
    let target_container_url := storage_account_url ++ "/" ++ target_container in
    match language_token svc with
    | Raise e => (handled e, [TokenRequested], st)
    | Ok _ =>
        let url := submit_url language_endpoint in
        let body := payload blob_name source_blob_url target_container_url in
        let made := [TokenRequested; JobSubmitted url body] in
        match post svc url body with
        | Raise e => (handled e, made, st)
        | Ok response =>
            if negb (status_code response =? 202)%nat then
              if raises_for_status (status_code response) then (RequestError, made, st)
              else (NotAccepted (status_code response), made, st)
            else
              match header (headers response) "operation-location" with
              | Raise e => (handled e, made, st)
              | Ok operation_url =>
                  match poll_status (polls svc) (VStr operation_url) st with
                  | (JobSucceeded (Redacted redacted_pdf_url), st') =>
                      (move_plan storage_account_url target_container blob_name
                                 redacted_pdf_url, made, st')
                  | (r, st') => (Polled r, made, st')
                  end
              end
        end
    end.

End AnalyzeDocumentBlob.

Module AnalyzeStated.
Import AnalyzeDocumentBlob.

(** The URL the function submits its job to. *)
Definition job_url (svc : Service) : string :=
  submit_url (environ_get svc "LANGUAGE_ENDPOINT" "").

(** The body the function submits for the blob at [path]. *)
Definition job_body (svc : Service) (path : string) : pyval :=
  let storage_account_url := environ_get svc "STORAGE_ACCOUNT_URL" "" in
  payload (blob_name_of path)
    (storage_account_url ++ "/" ++ environ_get svc "SOURCE_CONTAINER" "bronze"
       ++ "/" ++ blob_name_of path)
    (storage_account_url ++ "/" ++ environ_get svc "TARGET_CONTAINER" "silver").

End AnalyzeStated.

(* ===================================================================== *)
(** * testing/test.py: the poll loop of the script *)
(* ===================================================================== *)

Module TestScript.
Import FunctionAppNew.

(** What the script has found when its loop breaks. *)
Inductive found : Type :=
| Nothing
| Artifact (redacted_pdf_url : pyval).

(** Lines 108 to 122: the search for the artifact in a final job. *)
Definition search (status job : pyval) : result found :=
  if is_str status "succeeded" then
    tasks <- method_get_default job "tasks" (VDict []) ;;
    items <- method_get tasks "items" ;;
    if truthy items then
      tasks' <- subscript job "tasks" ;;
      items' <- subscript tasks' "items" ;;
      item <- first_item items' ;;
      task_result <- method_get_default item "results" (VDict []) ;;
      documents <- method_get_default task_result "documents" (VList []) ;;
      if truthy documents then
        document <- first_item documents ;;
        targets <- method_get_default document "targets" (VList []) ;;
        target_list <- iter_items targets ;;
        redacted_pdf_url <- find_redacted_pdf_url target_list ;;
        if truthy redacted_pdf_url then Ok (Artifact redacted_pdf_url)
        else Ok Nothing
      else Ok Nothing
    else Ok Nothing
  else Ok Nothing.

(** Lines 96 to 156: [while True: ... time.sleep(2)].  The script has no
    handler: an exception ends it.  [None] stands for a loop still running
    when the fuel of the model is spent. *)
Fixpoint poll_loop (w : World) (fuel : nat) (operation_url : pyval) (st : State)
  : option (result found * State) :=
  match fuel with
  | O => None
  | S fuel' =>
      match requests_get w operation_url st with
      | (Raise e, st1) => Some (Raise e, st1)
      | (Ok body, st1) =>
          match subscript body "status" with
          | Raise e => Some (Raise e, st1)
          | Ok status =>
              if is_final status then Some (search status body, st1)
              else poll_loop w fuel' operation_url (sleep 2 st1)
          end
      end
  end.

End TestScript.

(* ===================================================================== *)
(** * Paths through an orchestrator *)
(* ===================================================================== *)

Module Paths.

(** The activity calls an orchestrator makes along one of its paths, in
    order: name, input and result.  The result [None] is a call that fails
    for good, which ends the path; [Some v] resumes the orchestrator with
    [v]. *)
Inductive calls_to : orch -> list (string * pyval * option pyval) -> Prop :=
| calls_returned v : calls_to (Return v) []
| calls_raised e : calls_to (Throw e) []
| calls_failed name opts input k :
    calls_to (CallActivityWithRetry name opts input k) [(name, input, None)]
| calls_next name opts input k v rest :
    calls_to (k v) rest ->
    calls_to (CallActivityWithRetry name opts input k)
             ((name, input, Some v) :: rest).

(** The names of the activities called along a path. *)
Definition called (path : list (string * pyval * option pyval)) : list string :=
  map (fun c => fst (fst c)) path.

(** The three extraction activities. *)
Definition extraction_activities : list string :=
  ["callAoaiMultiModal"; "speechToText"; "runDocIntel"].

(** The state of the polling after [n] turns that did not leave the
    document loop. *)
Definition after_polls (w : World) (url : pyval) (n : nat) (st : State) : State :=
  Nat.iter n (FunctionAppNew.after_poll w url) st.

(** The first [n] polls counted from [st] all answer, with a status that
    [final] rejects. *)
Definition none_final (final : pyval -> bool) (w : World) (url : pyval)
    (st : State) (n : nat) : Prop :=
  forall m, m < n ->
    exists b s,
      get_json w (gets st + m) url = Ok b /\
      subscript b "status" = Ok s /\ final s = false.

(** Poll number [n] counted from [st] fails: the request raises, or its
    answer has no status to read. *)
Definition poll_fails (w : World) (url : pyval) (st : State) (n : nat) (e : exn)
  : Prop :=
  get_json w (gets st + n) url = Raise e \/
  exists b, get_json w (gets st + n) url = Ok b /\ subscript b "status" = Raise e.

End Paths.
Export Paths.

Module MoreSamples.
Import Samples AnalyzeDocumentBlob.

(** A language service that accepts the job and finds it succeeded at the
    third poll, with a JSON report and a redacted PDF among the targets. *)
Definition job_result (status : string) : pyval :=
  VDict [("status", VStr status);
         ("tasks",
          VDict [("items",
                  VList [VDict [("results",
                    VDict [("documents",
                      VList [VDict [("targets",
                        VList [target "https://store.example/silver/job-1/bill2.json";
                               target "https://store.example/silver/job-1/bill2.pdf"])]])])]])])].

Definition language_world : World := {|
  get_json := fun n _ =>
    match n with
    | 0 | 1 => Ok (status_body "running")
    | _ => Ok (job_result "succeeded")
    end;
  get_latency := fun _ => 1%N;
  post_json := fun _ _ => Raise RequestException
|}.

Definition settings (name : string) : option string :=
  if String.eqb name "LANGUAGE_ENDPOINT" then Some "https://lang.example"
  else if String.eqb name "STORAGE_ACCOUNT_URL" then Some "https://store.example"
  else None.

Definition language_service : Service := {|
  environ := settings;
  language_token := Ok "token";
  post := fun _ _ =>
    Ok {| status_code := 202;
          headers := [("Operation-Location", "https://lang.example/jobs/1")] |};
  polls := language_world
|}.

(** The same service with no endpoint configured. *)
Definition unconfigured_service : Service := {|
  environ := fun name =>
    if String.eqb name "LANGUAGE_ENDPOINT" then Some "" else settings name;
  language_token := Ok "token";
  post := fun _ _ => Ok {| status_code := 202; headers := [] |};
  polls := language_world
|}.

(** The same service, refusing the job. *)
Definition refusing_service (code : nat) : Service := {|
  environ := settings;
  language_token := Ok "token";
  post := fun _ _ => Ok {| status_code := code; headers := [] |};
  polls := language_world
|}.

(** A transcription whose third poll has no status. *)
Definition broken_poll_world : World := {|
  get_json := fun n _ =>
    match n with
    | 0 | 1 => Ok (status_body "Running")
    | _ => Ok (VDict [("error", VStr "gone")])
    end;
  get_latency := fun _ => 1%N;
  post_json := fun _ _ => Ok (VDict [("self", VStr "https://ai.example/job")])
|}.

(** A transcription that fails at the second poll and still has files. *)
Definition failing_world : World := {|
  get_json := fun n _ =>
    match n with
    | 0 => Ok (status_body "Running")
    | 1 => Ok (status_body "Failed")
    | 2 => Ok files_body
    | _ => Ok content_body
    end;
  get_latency := fun _ => 1%N;
  post_json := fun _ _ => Ok (VDict [("self", VStr "https://ai.example/job")])
|}.

(** A transcription that succeeds at once with no result file. *)
Definition empty_files_world : World := {|
  get_json := fun n _ =>
    match n with
    | 0 => Ok (status_body "Succeeded")
    | _ => Ok (VDict [("values", VList [])])
    end;
  get_latency := fun _ => 1%N;
  post_json := fun _ _ => Ok (VDict [("self", VStr "https://ai.example/job")])
|}.

(** A document job that succeeds at the fourth poll, each request taking
    100 time units: the fourth poll would start at 306. *)
Definition late_world : World := {|
  get_json := fun n _ =>
    match n with
    | 0 | 1 | 2 => Ok (status_body "running")
    | _ => Ok (job_result "succeeded")
    end;
  get_latency := fun _ => 100%N;
  post_json := fun _ _ => Raise RequestException
|}.

(** A succeeded job whose first document has the given targets. *)
Definition job_with (targets : list pyval) : dict :=
  [("status", VStr "succeeded");
   ("tasks",
    VDict [("items",
            VList [VDict [("results",
              VDict [("documents",
                VList [VDict [("targets", VList targets)]])])]])])].

(** A configuration whose credential hands out no token. *)
Definition tokenless_config : Configuration := {|
  get_value := get_value plain_config;
  get_token := fun _ => Raise RequestException
|}.

(** A language service that answers the submission with the given code
    and an operation-location header. *)
Definition answering_service (code : nat) : Service := {|
  environ := settings;
  language_token := Ok "token";
  post := fun _ _ =>
    Ok {| status_code := code;
          headers := [("operation-location", "https://lang.example/jobs/1")] |};
  polls := language_world
|}.

End MoreSamples.

(* ===================================================================== *)
(** * Strings: lowering, splitting, suffixes *)
(* ===================================================================== *)

Module StringFacts.

Ltac each_ascii c :=
  destruct c as [[] [] [] [] [] [] [] []]; reflexivity.

Lemma lower_ascii_dot c :
  Ascii.eqb (lower_ascii c) "." = Ascii.eqb c ".".
Proof. each_ascii c. Qed.

Lemma lower_ascii_idem c : lower_ascii (lower_ascii c) = lower_ascii c.
Proof. each_ascii c. Qed.

Lemma lower_idem s : lower (lower s) = lower s.
Proof.
  induction s as [|c s IH]; simpl.
  - reflexivity.
  - now rewrite lower_ascii_idem, IH.
Qed.

Lemma contains_dot_lower s :
  contains_char "." (lower s) = contains_char "." s.
Proof.
  induction s as [|c s IH]; simpl.
  - reflexivity.
  - now rewrite lower_ascii_dot, IH.
Qed.

Lemma split_nonempty sep s : split sep s <> [].
Proof.
  destruct s as [|c s]; simpl.
  - discriminate.
  - destruct (Ascii.eqb c sep); [discriminate|].
    destruct (split sep s); discriminate.
Qed.

(** Lowering commutes with splitting at dots: the dot is no letter. *)
Lemma split_lower s :
  split "." (lower s) = map lower (split "." s).
Proof.
  induction s as [|c s IH]; simpl.
  - reflexivity.
  - rewrite lower_ascii_dot, IH.
    destruct (Ascii.eqb c "."); simpl.
    + reflexivity.
    + destruct (split "." s); reflexivity.
Qed.

Lemma last_map_lower l :
  List.last (map lower l) "" = lower (List.last l "").
Proof.
  induction l as [|x l IH]; simpl.
  - reflexivity.
  - destruct l as [|y l]; [reflexivity|]. exact IH.
Qed.

Lemma last_segment_lower s :
  last_segment (split "." (lower s)) = lower (last_segment (split "." s)).
Proof.
  unfold last_segment. rewrite split_lower. apply last_map_lower.
Qed.

(** The extension of a name that is a string, in closed form. *)
Lemma file_extension_of_str s :
  file_extension_of (VStr s) =
  Ok (if contains_char "." s then lower (last_segment (split "." s)) else "").
Proof.
  unfold file_extension_of. simpl.
  destruct (contains_char "." s); simpl.
  - now rewrite last_segment_lower.
  - reflexivity.
Qed.


Lemma str_in_true x l : str_in x l = true <-> In x l.
Proof.
  unfold str_in. rewrite existsb_exists. split.
  - intros [y [Hin Heq]]. apply String.eqb_eq in Heq. now subst.
  - intros Hin. exists x. split; [assumption|apply String.eqb_refl].
Qed.

(** No extension is both an audio and a document extension. *)
Lemma audio_not_document ext :
  str_in ext audio_extensions = true -> str_in ext document_extensions = false.
Proof.
  intros H. apply str_in_true in H. simpl in H.
  repeat (destruct H as [H|H]; [subst ext; reflexivity|]).
  contradiction.
Qed.

Lemma document_not_audio ext :
  str_in ext document_extensions = true -> str_in ext audio_extensions = false.
Proof.
  intros H. apply str_in_true in H. simpl in H.
  repeat (destruct H as [H|H]; [subst ext; reflexivity|]).
  contradiction.
Qed.

Lemma endswith_suffix s suffix :
  endswith s suffix = true <-> exists prefix, s = (prefix ++ suffix)%string.
Proof.
  split.
  - induction s as [|c s IH]; cbn [endswith].
    + destruct (String.eqb "" suffix) eqn:E; [|discriminate].
      apply String.eqb_eq in E. subst. intros _. now exists "".
    + destruct (String.eqb (String c s) suffix) eqn:E.
      * apply String.eqb_eq in E. subst. intros _. now exists "".
      * intros H. destruct (IH H) as [p Hp]. exists (String c p).
        simpl. now rewrite Hp.
  - intros [p Hp]. subst s. induction p as [|c p IH]; cbn [endswith append].
    + destruct suffix as [|a suffix]; cbn [endswith];
        now rewrite String.eqb_refl.
    + destruct (String.eqb (String c (p ++ suffix)) suffix); [reflexivity|].
      exact IH.
Qed.

End StringFacts.

(* ===================================================================== *)
(** * The retry executor *)
(* ===================================================================== *)

Module DurableFacts.

Lemma backoff_step gap e e2 rest :
  (ev_finish e + gap <= ev_start e2)%N ->
  (ev_start e + gap <= ev_start e2)%N ->
  backoff_at_least gap (e2 :: rest) ->
  backoff_at_least gap (e :: e2 :: rest).
Proof.
  intros H1 H2 H3. exact (conj H1 (conj H2 H3)).
Qed.

(** Every attempt of one call carries the name of its activity. *)
Lemma retry_loop_names w name input interval remaining :
  forall no now out evs t,
    retry_loop w name input interval remaining no now = (out, evs, t) ->
    Forall (fun e => ev_name e = name) evs.
Proof.
  induction remaining as [|more IH]; intros no now out evs t; simpl.
  - intros H. inversion H. constructor.
  - destruct (attempt w name input no).
    + intros H. inversion H. repeat constructor.
    + destruct more as [|more'].
      * intros H. inversion H. repeat constructor.
      * destruct (retry_loop w name input interval (S more') (S no) _)
          as [[out' evs'] t'] eqn:E.
        intros H. inversion H. subst. constructor; [reflexivity|].
        eapply IH. exact E.
Qed.

(** A call that has attempts left makes at least one. *)
Lemma retry_loop_nonempty w name input interval remaining no now :
  0 < remaining ->
  snd (fst (retry_loop w name input interval remaining no now)) <> [].
Proof.
  destruct remaining as [|more]; [lia|]. intros _. simpl.
  destruct (attempt w name input no); [discriminate|].
  destruct more; [discriminate|].
  destruct (retry_loop w name input interval (S more) (S no) _) as [[? ?] ?].
  discriminate.
Qed.

(** A call that is done returns what one of its attempts produced. *)
Lemma retry_loop_done w name input interval remaining :
  forall no now v evs t,
    retry_loop w name input interval remaining no now = (Done v, evs, t) ->
    exists i, attempt w name input i = Succeeds v.
Proof.
  induction remaining as [|more IH]; intros no now v evs t; simpl.
  - discriminate.
  - destruct (attempt w name input no) eqn:A.
    + intros H. inversion H. subst. now exists no.
    + destruct more as [|more'].
      * discriminate.
      * destruct (retry_loop w name input interval (S more') (S no) _)
          as [[out' evs'] t'] eqn:E.
        intros H. inversion H. subst. eapply IH. exact E.
Qed.

(** [n] failures and then a success, with attempts to spare: done after
    [n + 1] attempts, each retry [interval] after the failure before it. *)
Lemma retry_loop_succeeds w name input interval v :
  forall n remaining no now,
    n < remaining ->
    (forall i, no <= i < no + n -> attempt w name input i = Fails) ->
    attempt w name input (no + n) = Succeeds v ->
    exists evs t,
      retry_loop w name input interval remaining no now = (Done v, evs, t) /\
      List.length evs = S n /\
      starts_at now evs /\
      backoff_at_least interval evs.
Proof.
  induction n as [|n IH]; intros remaining no now Hlt Hfail Hok.
  - destruct remaining as [|more]; [lia|]. simpl.
    rewrite Nat.add_0_r in Hok. rewrite Hok.
    eexists _, _. repeat split.
  - destruct remaining as [|more]; [lia|]. simpl.
    rewrite (Hfail no) by lia.
    destruct more as [|more']; [lia|].
    destruct (IH (S more') (S no)
                 (now + duration w name no + interval)%N) as (evs & t & E & L & S0 & B).
    + lia.
    + intros i Hi. apply Hfail. lia.
    + replace (S no + n) with (no + S n) by lia. exact Hok.
    + rewrite E. eexists _, _. split; [reflexivity|].
      split; [simpl; now rewrite L|]. split; [reflexivity|].
      destruct evs as [|e2 rest]; [exact I|].
      cbn [starts_at] in S0.
      apply backoff_step; [simpl; lia|simpl; lia|exact B].
Qed.

(** Failure at every attempt: exhausted after exactly [remaining] of them. *)
Lemma retry_loop_exhausts w name input interval :
  forall remaining no now,
    0 < remaining ->
    (forall i, no <= i < no + remaining -> attempt w name input i = Fails) ->
    exists evs t,
      retry_loop w name input interval remaining no now = (Exhausted, evs, t) /\
      List.length evs = remaining /\
      starts_at now evs /\
      backoff_at_least interval evs.
Proof.
  induction remaining as [|more IH]; intros no now Hpos Hfail; [lia|].
  simpl. rewrite (Hfail no) by lia.
  destruct more as [|more'].
  - eexists _, _. repeat split.
  - destruct (IH (S no) (now + duration w name no + interval)%N)
      as (evs & t & E & L & S0 & B).
    + lia.
    + intros i Hi. apply Hfail. lia.
    + rewrite E. eexists _, _. split; [reflexivity|].
      split; [simpl; now rewrite L|]. split; [reflexivity|].
      destruct evs as [|e2 rest]; [exact I|].
      cbn [starts_at] in S0.
      apply backoff_step; [simpl; lia|simpl; lia|exact B].
Qed.

(** A completed run of a call node: the call was done and the rest of the
    orchestrator completed. *)
Lemma run_call_completed w name opts input k now out evs :
  execute w (CallActivityWithRetry name opts input k) now = (Completed out, evs) ->
  exists v evs1 t evs2,
    call_activity_with_retry w name opts input now = (Done v, evs1, t) /\
    execute w (k v) t = (Completed out, evs2) /\
    evs = (evs1 ++ evs2)%list.
Proof.
  simpl.
  destruct (call_activity_with_retry w name opts input now) as [[o evs1] t].
  destruct o as [v|]; [|discriminate].
  destruct (execute w (k v) t) as [st rest] eqn:E.
  intros H. inversion H. subst. now exists v, evs1, t, rest.
Qed.

(** The names attempted by a call node: its own, then those of the rest. *)
Lemma run_call_invoked w name opts input k now :
  exists evs1 rest,
    invoked (snd (execute w (CallActivityWithRetry name opts input k) now)) =
      (invoked evs1 ++ rest)%list /\
    evs1 = snd (fst (call_activity_with_retry w name opts input now)) /\
    Forall (fun n => n = name) (invoked evs1) /\
    (rest = [] \/
     exists v t, fst (fst (call_activity_with_retry w name opts input now)) = Done v /\
                 rest = invoked (snd (execute w (k v) t))).
Proof.
  simpl.
  destruct (call_activity_with_retry w name opts input now) as [[o evs1] t] eqn:E.
  assert (Hn : Forall (fun n => n = name) (invoked evs1)).
  { unfold call_activity_with_retry in E. apply retry_loop_names in E.
    unfold invoked. rewrite Forall_map. exact E. }
  destruct o as [v|].
  - destruct (execute w (k v) t) as [st rest] eqn:R. simpl.
    exists evs1, (invoked rest). unfold invoked at 1. rewrite map_app.
    repeat split; try assumption. right. exists v, t. now rewrite R.
  - simpl. exists evs1, []. rewrite app_nil_r. repeat split; try assumption. now left.
Qed.

End DurableFacts.

(* ===================================================================== *)
(** * The orchestration [process_blob] *)
(* ===================================================================== *)

Module ProcessBlobFacts.
Import StringFacts DurableFacts Samples.

(** [process_blob] on a blob whose name is a string, with both toggles
    readable: the five-way choice of the source, in closed form. *)
Lemma process_blob_unfold config id blob_input blob_name ext mm vision :
  get_default blob_input "name" (VStr "") = VStr blob_name ->
  file_extension_of (VStr blob_name) = Ok ext ->
  toggle config "AOAI_MULTI_MODAL" = Ok mm ->
  toggle config "AI_VISION_ENABLED" = Ok vision ->
  process_blob config id blob_input =
  if mm && str_in ext document_extensions then
    CallActivityWithRetry "callAoaiMultiModal" retry_options
      (VDict [("name", get blob_input "name");
              ("container", get blob_input "container");
              ("uri", get blob_input "uri");
              ("instance_id", VStr id)])
      (enrich_and_persist config id blob_input)
  else if vision then Throw (UnboundLocalError "text_result")
  else if str_in ext audio_extensions then
    CallActivityWithRetry "speechToText" retry_options (VDict blob_input)
      (enrich_and_persist config id blob_input)
  else if str_in ext document_extensions then
    CallActivityWithRetry "runDocIntel" retry_options (VDict blob_input)
      (enrich_and_persist config id blob_input)
  else Return (skipped_outcome blob_input ext).
Proof.
  intros Hname Hext Hmm Hvision. unfold process_blob.
  rewrite Hname, Hext, Hmm.
  destruct (mm && str_in ext document_extensions); [reflexivity|].
  rewrite Hvision. destruct vision; reflexivity.
Qed.

(** Steps 2 and 3 attempt nothing but enrichment and persistence. *)
Lemma enrich_and_persist_invoked config id blob_input text_result w t :
  Forall (fun n => n = "callAoai" \/ n = "writeToBlob")
         (invoked (snd (execute w (enrich_and_persist config id blob_input text_result) t))).
Proof.
  unfold enrich_and_persist.
  match goal with
  | |- context [execute w (CallActivityWithRetry ?n ?o ?i ?k) t] =>
      destruct (run_call_invoked w n o i k t) as (evs1 & rest & E & _ & F & R)
  end.
  rewrite E. apply Forall_app. split.
  - eapply Forall_impl; [|exact F]. intros a Ha. now left.
  - destruct R as [->|(v & t' & _ & ->)]; [constructor|].
    destruct (subscript (VDict blob_input) "name") as [name|e]; [|constructor].
    match goal with
    | |- context [execute w (CallActivityWithRetry ?n ?o ?i ?k) t'] =>
        destruct (run_call_invoked w n o i k t') as (evs2 & rest2 & E2 & _ & F2 & R2)
    end.
    rewrite E2. apply Forall_app. split.
    + eapply Forall_impl; [|exact F2]. intros a Ha. now right.
    + destruct R2 as [->|(v2 & t2 & _ & ->)]; constructor.
Qed.

(** Every activity call of the orchestrator carries [retry_options]. *)
Lemma process_blob_retries_every_call config id blob_input :
  all_calls_with retry_options (process_blob config id blob_input).
Proof.
  assert (K : forall text, all_calls_with retry_options
                             (enrich_and_persist config id blob_input text)).
  { intros text. unfold enrich_and_persist. constructor. intros aoai.
    destruct (subscript (VDict blob_input) "name"); constructor.
    intros task. constructor. }
  unfold process_blob.
  destruct (file_extension_of _); [|constructor].
  destruct (toggle config "AOAI_MULTI_MODAL") as [mm|]; [|constructor].
  destruct (mm && _); [now constructor|].
  destruct (toggle config "AI_VISION_ENABLED") as [[]|]; try constructor.
  destruct (str_in a audio_extensions); [now constructor|].
  destruct (str_in a document_extensions); now constructor.
Qed.

(** C1 (as amended).  With the vision toggle not enabled, the orchestration
    routes a file by the extension of its name: an audio extension asks for
    the speech-transcription activity; a document extension, when the
    multimodal toggle is not enabled either, asks for the
    document-extraction activity; any other extension, or none, returns the
    skipped outcome with the unsupported-file-type error and attempts no
    activity at all.  In the first two cases the only other calls are those
    of enrichment and persistence. *)
Theorem process_blob_routes_by_extension
    config id blob_input blob_name ext mm :
  get_default blob_input "name" (VStr "") = VStr blob_name ->
  file_extension_of (VStr blob_name) = Ok ext ->
  toggle config "AOAI_MULTI_MODAL" = Ok mm ->
  toggle config "AI_VISION_ENABLED" = Ok false ->
  (str_in ext audio_extensions = true ->
     process_blob config id blob_input =
     CallActivityWithRetry "speechToText" retry_options (VDict blob_input)
       (enrich_and_persist config id blob_input)) /\
  (str_in ext document_extensions = true -> mm = false ->
     process_blob config id blob_input =
     CallActivityWithRetry "runDocIntel" retry_options (VDict blob_input)
       (enrich_and_persist config id blob_input)) /\
  (str_in ext audio_extensions = false ->
   str_in ext document_extensions = false ->
     forall w now,
       execute w (process_blob config id blob_input) now =
       (Completed (skipped_outcome blob_input ext), [])).
Proof.
  intros Hname Hext Hmm Hvision.
  rewrite (process_blob_unfold _ _ _ _ _ _ _ Hname Hext Hmm Hvision).
  repeat split.
  - intros Ha. rewrite (audio_not_document _ Ha), Ha, andb_false_r. reflexivity.
  - intros Hd ->. rewrite (document_not_audio _ Hd), Hd. reflexivity.
  - intros Ha Hd w now. rewrite Ha, Hd, andb_false_r. reflexivity.
Qed.

Lemma process_blob_routes_by_extension_witness :
  process_blob plain_config "i" (blob "call_42.wav") =
    CallActivityWithRetry "speechToText" retry_options (VDict (blob "call_42.wav"))
      (enrich_and_persist plain_config "i" (blob "call_42.wav")) /\
  execute happy_world (process_blob plain_config "i" (blob "report.xyz")) 0 =
    (Completed (skipped_outcome (blob "report.xyz") "xyz"), []).
Proof.
  split.
  - apply (process_blob_routes_by_extension plain_config "i" (blob "call_42.wav")
             "call_42.wav" "wav" false); reflexivity.
  - apply (process_blob_routes_by_extension plain_config "i" (blob "report.xyz")
             "report.xyz" "xyz" false); reflexivity.
Defined.

(** With both toggles off the routing is by extension alone. *)
Lemma toggles_off_routes_by_extension config id blob_input :
  toggle config "AOAI_MULTI_MODAL" = Ok false ->
  toggle config "AI_VISION_ENABLED" = Ok false ->
  routes_by_extension config id blob_input.
Proof.
  intros Hmm Hv blob_name ext Hname Hext.
  rewrite (process_blob_unfold _ _ _ _ _ _ _ Hname Hext Hmm Hv).
  cbn [andb]. repeat split.
  - intros Ha. now rewrite Ha.
  - intros Hd. now rewrite (document_not_audio _ Hd), Hd.
  - intros Ha Hd w now. now rewrite Ha, Hd.
Qed.

(** C1 (as stated) fails: with the multimodal toggle enabled a PDF is not
    sent to the document-extraction activity. *)
Lemma routes_by_extension_counterexample :
  ~ routes_by_extension multimodal_config "i" (blob "report.pdf").
Proof.
  intros H.
  destruct (H "report.pdf" "pdf" eq_refl eq_refl) as (_ & D & _).
  specialize (D eq_refl). discriminate D.
Qed.

(** The vision toggle, once enabled, leaves [text_result] unbound for every
    file the multimodal branch does not take. *)
Lemma vision_branch_raises :
  process_blob (config_with "false" "true") "i" (blob "call_42.wav") =
  Throw (UnboundLocalError "text_result").
Proof. reflexivity. Qed.

(** C5.  For a file whose extension is a document extension, when the
    configured value of the multimodal toggle, lowercased, is "true", the
    orchestration asks for the multimodal extraction activity, its run
    attempts that activity, and no run attempts the plain
    document-extraction activity. *)
Theorem multimodal_takes_precedence
    config id blob_input blob_name ext value :
  get_default blob_input "name" (VStr "") = VStr blob_name ->
  file_extension_of (VStr blob_name) = Ok ext ->
  str_in ext document_extensions = true ->
  get_value config "AOAI_MULTI_MODAL" (Some (VStr "false")) = VStr value ->
  lower value = "true" ->
  process_blob config id blob_input =
    CallActivityWithRetry "callAoaiMultiModal" retry_options
      (VDict [("name", get blob_input "name");
              ("container", get blob_input "container");
              ("uri", get blob_input "uri");
              ("instance_id", VStr id)])
      (enrich_and_persist config id blob_input) /\
  forall w now,
    In "callAoaiMultiModal" (invoked (snd (execute w (process_blob config id blob_input) now))) /\
    ~ In "runDocIntel" (invoked (snd (execute w (process_blob config id blob_input) now))).
Proof.
  intros Hname Hext Hdoc Hval Hlow.
  assert (E : process_blob config id blob_input =
              CallActivityWithRetry "callAoaiMultiModal" retry_options
                (VDict [("name", get blob_input "name");
                        ("container", get blob_input "container");
                        ("uri", get blob_input "uri");
                        ("instance_id", VStr id)])
                (enrich_and_persist config id blob_input)).
  { assert (T : toggle config "AOAI_MULTI_MODAL" = Ok true).
    { unfold toggle. rewrite Hval. simpl. now rewrite Hlow. }
    unfold process_blob. rewrite Hname, Hext, T, Hdoc. reflexivity. }
  split; [exact E|]. intros w now. rewrite E.
  match goal with
  | |- context [execute w (CallActivityWithRetry ?n ?o ?i ?k) now] =>
      destruct (run_call_invoked w n o i k now) as (evs1 & rest & Ei & Hevs & F & R);
      pose proof (retry_loop_nonempty w n i (first_retry_interval_in_milliseconds o)
                    (max_number_of_attempts o) 1 now) as Hne
  end.
  rewrite Ei. split.
  - apply in_or_app. left.
    unfold call_activity_with_retry in Hevs. rewrite <- Hevs in Hne.
    destruct evs1 as [|e evs1]; [exfalso; apply Hne; [simpl; lia|reflexivity]|].
    inversion F as [|? ? Hhd]. simpl in *. left. assumption.
  - intros Hin. apply in_app_or in Hin. destruct Hin as [Hin|Hin].
    + rewrite Forall_forall in F. specialize (F _ Hin). discriminate F.
    + destruct R as [->|(v & t & _ & ->)]; [contradiction|].
      pose proof (enrich_and_persist_invoked config id blob_input v w t) as Fe.
      rewrite Forall_forall in Fe. destruct (Fe _ Hin); discriminate.
Qed.

Lemma multimodal_takes_precedence_witness :
  selected_path (process_blob multimodal_config "i" (blob "scan.PDF"))
    = Some "callAoaiMultiModal" /\
  ~ In "runDocIntel"
      (invoked (snd (execute happy_world
                       (process_blob multimodal_config "i" (blob "scan.PDF")) 0))).
Proof.
  destruct (multimodal_takes_precedence multimodal_config "i" (blob "scan.PDF")
              "scan.PDF" "pdf" "True" eq_refl eq_refl eq_refl eq_refl eq_refl)
    as [E H].
  split.
  - rewrite E. reflexivity.
  - apply (H happy_world 0%N).
Defined.

End ProcessBlobFacts.

Module OrchestrationFacts.
Import StringFacts DurableFacts ProcessBlobFacts Samples.




Lemma call_with_retry_options w name input now :
  call_activity_with_retry w name retry_options input now =
  retry_loop w name input 5000 5 1 now.
Proof. reflexivity. Qed.

(** C2.  A call made through the orchestration's retry options (at most 5
    attempts, 5000 ms between a failure and the next attempt): when its
    first [n] attempts fail, with [n < 5], and the next one succeeds, the
    call is done after exactly [n + 1] attempts, each starting at least
    5000 ms after the one before, and the orchestration goes on with its
    result; when all 5 attempts fail, the instance fails after exactly 5
    attempts. *)
Theorem retry_policy w name input k now n :
  n <= 5 ->
  (forall i, 1 <= i <= n -> attempt w name input i = Fails) ->
  (forall v, n < 5 -> attempt w name input (S n) = Succeeds v ->
     exists evs t,
       call_activity_with_retry w name retry_options input now = (Done v, evs, t) /\
       List.length evs = S n /\
       backoff_at_least 5000 evs /\
       execute w (CallActivityWithRetry name retry_options input k) now =
         (fst (execute w (k v) t), (evs ++ snd (execute w (k v) t))%list)) /\
  (n = 5 ->
     exists evs t,
       call_activity_with_retry w name retry_options input now = (Exhausted, evs, t) /\
       List.length evs = 5 /\
       backoff_at_least 5000 evs /\
       execute w (CallActivityWithRetry name retry_options input k) now =
         (FailedActivity name, evs)).
Proof.
  intros Hle Hfail. split.
  - intros v Hlt Hok.
    destruct (retry_loop_succeeds w name input 5000 v n 5 1 now)
      as (evs & t & E & L & _ & B).
    + exact Hlt.
    + intros i Hi. apply Hfail. lia.
    + exact Hok.
    + exists evs, t. cbn [execute]. rewrite call_with_retry_options, E.
      repeat split; try assumption.
      destruct (execute w (k v) t). reflexivity.
  - intros ->.
    destruct (retry_loop_exhausts w name input 5000 5 1 now)
      as (evs & t & E & L & _ & B).
    + lia.
    + intros i Hi. apply Hfail. lia.
    + exists evs, t. cbn [execute]. rewrite call_with_retry_options, E.
      repeat split; assumption.
Qed.

Lemma retry_policy_witness :
  (exists evs t,
     call_activity_with_retry flaky_world "speechToText" retry_options
       (VDict (blob "call_42.wav")) 0 = (Done (VStr "text"), evs, t) /\
     List.length evs = 3) /\
  (exists evs,
     execute broken_world (process_blob plain_config "i" (blob "call_42.wav")) 0 =
       (FailedActivity "speechToText", evs) /\
     List.length evs = 5).
Proof.
  split.
  - destruct (retry_policy flaky_world "speechToText" (VDict (blob "call_42.wav"))
                (enrich_and_persist plain_config "i" (blob "call_42.wav")) 0 2)
      as [S _].
    + lia.
    + intros i Hi. simpl. destruct i as [|[|[|i]]]; try reflexivity; lia.
    + destruct (S (VStr "text")) as (evs & t & E & L & _); [lia|reflexivity|].
      exists evs, t. split; assumption.
  - destruct (retry_policy broken_world "speechToText" (VDict (blob "call_42.wav"))
                (enrich_and_persist plain_config "i" (blob "call_42.wav")) 0 5)
      as [_ F].
    + lia.
    + intros i Hi. reflexivity.
    + destruct (F eq_refl) as (evs & t & _ & L & _ & R).
      exists evs. split; [exact R|exact L].
Defined.

(** A completed run of steps 2 and 3 returns the three-field record. *)
Lemma enrich_and_persist_completed config id blob_input text_result w t out evs :
  execute w (enrich_and_persist config id blob_input text_result) t = (Completed out, evs) ->
  exists aoai_output task_result name,
    out = VDict [("blob", VDict blob_input);
                 ("text_result", aoai_output);
                 ("task_result", task_result)] /\
    dict_get blob_input "name" = Some name /\
    succeeded_with w "callAoai"
      (VDict [("text_result", text_result); ("instance_id", VStr id)]) aoai_output /\
    succeeded_with w "writeToBlob"
      (VDict [("json_str", aoai_output); ("blob_name", name);
              ("final_output_container", FINAL_OUTPUT_CONTAINER config)]) task_result.
Proof.
  unfold enrich_and_persist. intros H.
  apply run_call_completed in H. destruct H as (aoai & e1 & t1 & e2 & D1 & R1 & _).
  unfold subscript in R1.
  destruct (dict_get blob_input "name") as [name|] eqn:Hn; [|discriminate].
  apply run_call_completed in R1. destruct R1 as (task & e3 & t3 & e4 & D2 & R2 & _).
  simpl in R2. inversion R2. subst.
  exists aoai, task, name. repeat split.
  - unfold call_activity_with_retry in D1. eapply retry_loop_done. exact D1.
  - unfold call_activity_with_retry in D2. eapply retry_loop_done. exact D2.
Qed.

(** A completed run that attempted activities had its three steps succeed
    and returned the three-field record. *)
Lemma completed_run_had_three_successes config id blob_input w now out evs :
  execute w (process_blob config id blob_input) now = (Completed out, evs) ->
  evs <> [] ->
  exists extraction input text_result aoai_output task_result name,
    selected_path (process_blob config id blob_input) = Some extraction /\
    succeeded_with w extraction input text_result /\
    dict_get blob_input "name" = Some name /\
    succeeded_with w "callAoai"
      (VDict [("text_result", text_result); ("instance_id", VStr id)]) aoai_output /\
    succeeded_with w "writeToBlob"
      (VDict [("json_str", aoai_output); ("blob_name", name);
              ("final_output_container", FINAL_OUTPUT_CONTAINER config)]) task_result /\
    out = VDict [("blob", VDict blob_input);
                 ("text_result", aoai_output);
                 ("task_result", task_result)] /\
    subscript out "status" = Raise (KeyError "status").
Proof.
  intros H Hne.
  assert (K : forall extraction input,
             execute w (CallActivityWithRetry extraction retry_options input
                      (enrich_and_persist config id blob_input)) now
               = (Completed out, evs) ->
             exists text_result aoai_output task_result name,
               succeeded_with w extraction input text_result /\
               dict_get blob_input "name" = Some name /\
               succeeded_with w "callAoai"
                 (VDict [("text_result", text_result); ("instance_id", VStr id)])
                 aoai_output /\
               succeeded_with w "writeToBlob"
                 (VDict [("json_str", aoai_output); ("blob_name", name);
                         ("final_output_container", FINAL_OUTPUT_CONTAINER config)])
                 task_result /\
               out = VDict [("blob", VDict blob_input);
                            ("text_result", aoai_output);
                            ("task_result", task_result)] /\
               subscript out "status" = Raise (KeyError "status")).
  { intros extraction input R.
    apply run_call_completed in R. destruct R as (text & e1 & t1 & e2 & C & R & _).
    apply enrich_and_persist_completed in R.
    destruct R as (aoai & task & name & -> & Hn & A & T).
    exists text, aoai, task, name. repeat split; try assumption.
    unfold call_activity_with_retry in C. eapply retry_loop_done. exact C. }
  revert H. unfold process_blob.
  destruct (file_extension_of _) as [ext|]; [|discriminate].
  destruct (toggle config "AOAI_MULTI_MODAL") as [mm|]; [|discriminate].
  destruct (mm && str_in ext document_extensions).
  { intros R. destruct (K _ _ R) as (x1 & x2 & x3 & x4 & P).
    eexists _, _, x1, x2, x3, x4. split; [reflexivity|exact P]. }
  destruct (toggle config "AI_VISION_ENABLED") as [[]|]; try discriminate.
  destruct (str_in ext audio_extensions).
  { intros R. destruct (K _ _ R) as (x1 & x2 & x3 & x4 & P).
    eexists _, _, x1, x2, x3, x4. split; [reflexivity|exact P]. }
  destruct (str_in ext document_extensions).
  { intros R. destruct (K _ _ R) as (x1 & x2 & x3 & x4 & P).
    eexists _, _, x1, x2, x3, x4. split; [reflexivity|exact P]. }
  simpl. intros R. inversion R. subst. contradiction.
Qed.

(** An instance that starts with an activity call goes on with steps 2
    and 3. *)
Lemma first_call_continues config id blob_input extraction input :
  first_call (process_blob config id blob_input) = Some (extraction, input) ->
  process_blob config id blob_input =
  CallActivityWithRetry extraction retry_options input
    (enrich_and_persist config id blob_input).
Proof.
  unfold process_blob.
  destruct (file_extension_of _) as [ext|]; [|discriminate].
  destruct (toggle config "AOAI_MULTI_MODAL") as [mm|]; [|discriminate].
  destruct (mm && str_in ext document_extensions);
    [intros H; inversion H; reflexivity|].
  destruct (toggle config "AI_VISION_ENABLED") as [[]|]; try discriminate.
  destruct (str_in ext audio_extensions); [intros H; inversion H; reflexivity|].
  destruct (str_in ext document_extensions); [intros H; inversion H; reflexivity|].
  discriminate.
Qed.

(** C6 (as amended).  In every run of the orchestration in which the
    extraction, the enrichment and the persistence all succeed, the
    instance completes and returns the record made of the original file
    descriptor under "blob", the enrichment output under "text_result" and
    the persistence result under "task_result"; the record has no status
    field.  The history of the run is that of the three calls, in order. *)
Theorem completed_run_outcome config id blob_input w now extraction input
    text_result evs1 t1 aoai_output evs2 t2 name task_result evs3 t3 :
  first_call (process_blob config id blob_input) = Some (extraction, input) ->
  call_activity_with_retry w extraction retry_options input now
    = (Done text_result, evs1, t1) ->
  call_activity_with_retry w "callAoai" retry_options
    (VDict [("text_result", text_result); ("instance_id", VStr id)]) t1
    = (Done aoai_output, evs2, t2) ->
  dict_get blob_input "name" = Some name ->
  call_activity_with_retry w "writeToBlob" retry_options
    (VDict [("json_str", aoai_output); ("blob_name", name);
            ("final_output_container", FINAL_OUTPUT_CONTAINER config)]) t2
    = (Done task_result, evs3, t3) ->
  execute w (process_blob config id blob_input) now =
    (Completed (VDict [("blob", VDict blob_input);
                       ("text_result", aoai_output);
                       ("task_result", task_result)]),
     (evs1 ++ evs2 ++ evs3)%list) /\
  subscript (VDict [("blob", VDict blob_input);
                    ("text_result", aoai_output);
                    ("task_result", task_result)]) "status"
    = Raise (KeyError "status").
Proof.
  intros Hfirst Hx Ha Hn Hw. split; [|reflexivity].
  rewrite (first_call_continues _ _ _ _ _ Hfirst).
  cbn [execute]. rewrite Hx.
  unfold enrich_and_persist. cbn [execute]. rewrite Ha.
  unfold subscript. rewrite Hn. cbn [execute]. rewrite Hw.
  cbn [execute]. now rewrite app_nil_r.
Qed.

Lemma completed_run_outcome_witness :
  execute happy_world (process_blob plain_config "i" (blob "call_42.wav")) 0 =
    (Completed (VDict [("blob", VDict (blob "call_42.wav"));
                       ("text_result", VStr "Summary: greeting");
                       ("task_result", VStr "final/call_42.json")]),
     [Attempt "speechToText" 1 0 100;
      Attempt "callAoai" 1 100 200;
      Attempt "writeToBlob" 1 200 300]) /\
  subscript (VDict [("blob", VDict (blob "call_42.wav"));
                    ("text_result", VStr "Summary: greeting");
                    ("task_result", VStr "final/call_42.json")]) "status"
    = Raise (KeyError "status").
Proof.
  apply (completed_run_outcome plain_config "i" (blob "call_42.wav") happy_world 0
           "speechToText" (VDict (blob "call_42.wav")) (VStr "hello world")
           [Attempt "speechToText" 1 0 100] 100
           (VStr "Summary: greeting") [Attempt "callAoai" 1 100 200] 200
           (VStr "call_42.wav") (VStr "final/call_42.json")
           [Attempt "writeToBlob" 1 200 300] 300); reflexivity.
Defined.

(** C6 (as stated) fails: the outcome of the call_42.wav run, in which
    transcription, enrichment and persistence all succeed, has no status
    field, so none that says completed. *)
Lemma completed_outcome_counterexample :
  exists out,
    fst (execute happy_world (process_blob plain_config "i" (blob "call_42.wav")) 0) =
      Completed out /\
    ~ completed_outcome (blob "call_42.wav")
        (VStr "Summary: greeting") (VStr "final/call_42.json") out.
Proof.
  eexists. split; [reflexivity|].
  intros (S & _). discriminate S.
Qed.

End OrchestrationFacts.

(* ===================================================================== *)
(** * The HTTP trigger *)
(* ===================================================================== *)

Module HttpTriggerFacts.
Import Samples.

(** A body that does not parse is answered with 400 and starts nothing. *)
Lemma invalid_json_is_rejected new_id req client :
  body_json req = None ->
  start_orchestrator_http new_id req client =
  (Ok (Response "Invalid JSON." 400), client).
Proof.
  intros H. unfold start_orchestrator_http, req_get_json. now rewrite H.
Qed.

(** A JSON object starts exactly one instance of [process_blob] and is
    answered with the status-check response of that instance. *)
Lemma json_object_starts_one_instance new_id req client d :
  body_json req = Some (VDict d) ->
  start_orchestrator_http new_id req client =
  (Ok (CheckStatusResponse (new_id (List.length client))),
   (client ++ [("process_blob",
                VDict [("name", get d "name");
                       ("container", VStr "bronze");
                       ("uri", get d "uri")])])%list).
Proof.
  intros H. unfold start_orchestrator_http, req_get_json. now rewrite H.
Qed.

(** C10 (where the code departs from it).  A request whose body is a valid
    JSON array, the shape the docstring of the trigger announces, gets no
    response: [body.get] raises [AttributeError], which the handler for
    [ValueError] does not catch, and no instance is started. *)
Theorem json_array_body_raises new_id client items :
  start_orchestrator_http new_id {| body_json := Some (VList items) |} client =
  (Raise AttributeError, client).
Proof. reflexivity. Qed.

(** The same holds for every JSON body that is not an object. *)
Lemma json_non_object_raises new_id req client v :
  body_json req = Some v ->
  (forall d, v <> VDict d) ->
  start_orchestrator_http new_id req client = (Raise AttributeError, client).
Proof.
  intros H Hv. unfold start_orchestrator_http, req_get_json. rewrite H.
  destruct v; try reflexivity. now destruct (Hv d).
Qed.

End HttpTriggerFacts.

(* ===================================================================== *)
(** * The speech adapter *)
(* ===================================================================== *)

Module SpeechFacts.
Import SpeechToText Samples.

Lemma repeat_shift {A} (x : A) n l :
  (repeat x n ++ x :: l = repeat x (S n) ++ l)%list.
Proof.
  induction n as [|n IH]; simpl.
  - reflexivity.
  - now rewrite IH.
Qed.

(** One turn of the loop on a status it does not stop on: sleep, poll again. *)
Lemma wait_continues w fuel url check_interval st body status :
  get_json w (gets st) url = Ok body ->
  subscript body "status" = Ok status ->
  stops_on status = false ->
  wait_for_transcription w (S fuel) url check_interval st =
  wait_for_transcription w fuel url check_interval
    (sleep check_interval (snd (requests_get w url st))).
Proof.
  intros Hget Hstatus Hstop. unfold stops_on in Hstop.
  apply orb_false_iff in Hstop. destruct Hstop as [Hs Hf].
  cbn [wait_for_transcription]. unfold mbind at 1, http_get, requests_get.
  rewrite Hget. unfold mbind at 1, lift. rewrite Hstatus, Hs, Hf. reflexivity.
Qed.

(** One turn of the loop on a status it stops on: the answer is returned. *)
Lemma wait_stops w fuel url check_interval st body status :
  get_json w (gets st) url = Ok body ->
  subscript body "status" = Ok status ->
  stops_on status = true ->
  (is_str status "Failed" = true -> error_printable body) ->
  wait_for_transcription w (S fuel) url check_interval st =
  Some (Ok body, snd (requests_get w url st)).
Proof.
  intros Hget Hstatus Hstop Hprint.
  cbn [wait_for_transcription]. unfold mbind at 1, http_get, requests_get.
  rewrite Hget. unfold mbind at 1, lift. rewrite Hstatus.
  destruct (is_str status "Succeeded") eqn:Hs; [reflexivity|].
  unfold stops_on in Hstop. rewrite Hs in Hstop. simpl in Hstop.
  rewrite Hstop. destruct (Hprint Hstop) as [props Hp].
  unfold mbind, lift, ret. rewrite Hp. reflexivity.
Qed.

(** The loop returns the answer of the first poll whose status is
    Succeeded or Failed, after sleeping once per earlier poll. *)
Lemma wait_returns_at_first w url check_interval :
  forall n st body,
    first_final stops_on w url st n body ->
    (forall status, subscript body "status" = Ok status ->
                    is_str status "Failed" = true -> error_printable body) ->
    returns_at w url check_interval st n body.
Proof.
  induction n as [|n IH]; intros st body [(status & Hget & Hstatus & Hstop) Hbefore] Hprint
                                 fuel Hfuel.
  - destruct fuel as [|fuel]; [lia|].
    rewrite Nat.add_0_r in Hget.
    rewrite (wait_stops w fuel url check_interval st body status Hget Hstatus Hstop
               (Hprint status Hstatus)).
    eexists. split; [reflexivity|]. simpl. split; [lia|reflexivity].
  - destruct fuel as [|fuel]; [lia|].
    destruct (Hbefore 0) as (b & s & Hb & Hs & Hns); [lia|].
    rewrite Nat.add_0_r in Hb.
    rewrite (wait_continues w fuel url check_interval st b s Hb Hs Hns).
    set (st2 := sleep check_interval (snd (requests_get w url st))).
    assert (G : gets st2 = S (gets st)) by reflexivity.
    destruct (IH st2 body) with (fuel := fuel) as (st' & E & Hg & Hsl).
    + split.
      * exists status. rewrite G. replace (S (gets st) + n) with (gets st + S n) by lia.
        repeat split; assumption.
      * intros m Hm. destruct (Hbefore (S m)) as (b' & s' & Hb' & Hs' & Hns'); [lia|].
        exists b', s'. rewrite G.
        replace (S (gets st) + m) with (gets st + S m) by lia.
        repeat split; assumption.
    + exact Hprint.
    + lia.
    + exists st'. split; [exact E|]. split; [lia|].
      rewrite Hsl. apply repeat_shift.
Qed.

(** C4 (as amended).  The speech poll loop, which sleeps 10 time units
    between consecutive polls, returns the job status as soon as the polled
    status is Succeeded or Failed (for Failed, provided the error to print
    can be read: "properties" is absent or an object); on every other
    status, Cancelled included, it sleeps and polls again. *)
Theorem wait_returns_on_succeeded_or_failed w url st :
  (forall n body, get_json w n url = Ok body ->
                  subscript body "status" = Ok (VStr "Failed") ->
                  error_printable body) ->
  returns_when stops_on w url default_check_interval st /\
  forall fuel st1 body status,
    get_json w (gets st1) url = Ok body ->
    subscript body "status" = Ok status ->
    stops_on status = false ->
    wait_for_transcription w (S fuel) url default_check_interval st1 =
    wait_for_transcription w fuel url default_check_interval
      (sleep 10 (snd (requests_get w url st1))).
Proof.
  intros Hprint. split.
  - intros n body Hfirst. apply wait_returns_at_first; [exact Hfirst|].
    intros status Hstatus Hfailed.
    destruct Hfirst as [(status' & Hget & Hstatus' & _) _].
    apply (Hprint _ _ Hget).
    destruct status; try discriminate. simpl in Hfailed.
    apply String.eqb_eq in Hfailed. now subst.
  - intros fuel st1 body status. apply wait_continues.
Qed.

Lemma wait_returns_on_succeeded_or_failed_witness :
  exists st',
    wait_for_transcription transcribing_world 5 (VStr "https://ai.example/job")
      default_check_interval (initial 0) = Some (Ok (status_body "Succeeded"), st') /\
    gets st' = 3 /\ sleeps st' = [10%N; 10%N].
Proof.
  destruct (wait_returns_on_succeeded_or_failed transcribing_world
              (VStr "https://ai.example/job") (initial 0)) as [R _].
  - intros n body Hget Hstatus.
    destruct n as [|[|[|[|n]]]]; simpl in Hget; inversion Hget; subst;
      discriminate Hstatus.
  - destruct (R 2 (status_body "Succeeded")) with (fuel := 5) as (st' & E & G & S0).
    + split.
      * exists (VStr "Succeeded"). repeat split.
      * intros m Hm. exists (status_body "Running"), (VStr "Running").
        destruct m as [|[|m]]; [repeat split..|lia].
    + lia.
    + exists st'. repeat split; assumption.
Defined.

(** A cancelled job is polled for ever: no amount of fuel lets the loop
    return. *)
Lemma cancelled_job_is_polled_for_ever fuel :
  forall st,
    wait_for_transcription cancelled_world fuel (VStr "https://ai.example/job")
      default_check_interval st = None.
Proof.
  induction fuel as [|fuel IH]; intros st.
  - reflexivity.
  - rewrite (wait_continues cancelled_world fuel _ _ st
               (status_body "Cancelled") (VStr "Cancelled")); try reflexivity.
    apply IH.
Qed.

(** C4 (as stated) fails: Cancelled is not a status the loop returns on. *)
Lemma returns_on_cancelled_counterexample :
  ~ returns_when terminal cancelled_world (VStr "https://ai.example/job")
      default_check_interval (initial 0).
Proof.
  intros H.
  destruct (H 0 (status_body "Cancelled")) with (fuel := 1) as (st' & E & _).
  - split.
    + exists (VStr "Cancelled"). repeat split.
    + intros m Hm. lia.
  - lia.
  - rewrite cancelled_job_is_polled_for_ever in E. discriminate E.
Qed.

(** The fetch after the wait, when every field it reads is there. *)
Lemma fetch_text_returns w final_status st links files_url files_response
    first_file other_files file_links content_url content_response
    first_phrase other_phrases text :
  subscript final_status "links" = Ok links ->
  subscript links "files" = Ok files_url ->
  get_json w (gets st) files_url = Ok files_response ->
  subscript files_response "values" = Ok (VList (first_file :: other_files)) ->
  subscript first_file "links" = Ok file_links ->
  subscript file_links "contentUrl" = Ok content_url ->
  get_json w (S (gets st)) content_url = Ok content_response ->
  subscript content_response "combinedRecognizedPhrases"
    = Ok (VList (first_phrase :: other_phrases)) ->
  subscript first_phrase "display" = Ok text ->
  exists st',
    fetch_text w final_status st = Some (Ok text, st') /\ gets st' = S (S (gets st)).
Proof.
  intros H1 H2 H3 H4 H5 H6 H7 H8 H9.
  unfold fetch_text, mbind, lift, http_get, requests_get, ret.
  rewrite H1, H2, H3, H4. cbn [first_item]. rewrite H5, H6.
  cbn [gets]. rewrite H7, H8. cbn [first_item]. rewrite H9.
  eexists. split; reflexivity.
Qed.

(** C7.  When the transcription job of a blob reaches Succeeded, the
    activity fetches the list of result files, takes its first file, fetches
    the content of that file and returns the display text of the first
    entry of its combined recognized phrases. *)
Theorem run_returns_first_phrase config w d st token response transcription_url
    n final_status links files_url files_response first_file other_files
    file_links content_url content_response first_phrase other_phrases text :
  get_token config "https://cognitiveservices.azure.com/.default" = Ok token ->
  post_json w (submit_url config) (payload (get d "uri")) = Ok response ->
  subscript response "self" = Ok transcription_url ->
  first_final stops_on w transcription_url st n final_status ->
  subscript final_status "status" = Ok (VStr "Succeeded") ->
  subscript final_status "links" = Ok links ->
  subscript links "files" = Ok files_url ->
  get_json w (gets st + n + 1) files_url = Ok files_response ->
  subscript files_response "values" = Ok (VList (first_file :: other_files)) ->
  subscript first_file "links" = Ok file_links ->
  subscript file_links "contentUrl" = Ok content_url ->
  get_json w (gets st + n + 2) content_url = Ok content_response ->
  subscript content_response "combinedRecognizedPhrases"
    = Ok (VList (first_phrase :: other_phrases)) ->
  subscript first_phrase "display" = Ok text ->
  forall fuel, n < fuel ->
    exists st',
      run config w fuel (VDict d) st = Some (Ok text, st') /\
      gets st' = gets st + n + 3.
Proof.
  intros Htok Hpost Hself Hfirst Hsucc H1 H2 H3 H4 H5 H6 H7 H8 H9 fuel Hfuel.
  destruct (wait_returns_at_first w transcription_url default_check_interval
              n st final_status Hfirst) with (fuel := fuel) as (st1 & E & G & _).
  - intros status Hs Hf. rewrite Hsucc in Hs. inversion Hs. subst. discriminate Hf.
  - exact Hfuel.
  - destruct (fetch_text_returns w final_status st1 links files_url files_response
                first_file other_files file_links content_url content_response
                first_phrase other_phrases text) as (st' & F & G'); try assumption.
    + rewrite G. replace (gets st + S n) with (gets st + n + 1) by lia. exact H3.
    + rewrite G. replace (S (gets st + S n)) with (gets st + n + 2) by lia. exact H7.
    + exists st'. split; [|lia].
      unfold run. unfold mbind at 1 2 3 4 5 6. unfold lift, method_get, method_get_default.
      fold (get d "uri"). rewrite Htok, Hpost, Hself.
      unfold mbind. rewrite E. exact F.
Qed.

Lemma run_returns_first_phrase_witness :
  exists st',
    run plain_config transcribing_world 5 (VDict (blob "call_42.wav")) (initial 0)
      = Some (Ok (VStr "hello world"), st') /\
    gets st' = 5.
Proof.
  apply (run_returns_first_phrase plain_config transcribing_world (blob "call_42.wav")
           (initial 0) "token" (VDict [("self", VStr "https://ai.example/job")])
           (VStr "https://ai.example/job") 2 (status_body "Succeeded")
           (VDict [("files", VStr "https://ai.example/files")])
           (VStr "https://ai.example/files") files_body
           (VDict [("links", VDict [("contentUrl", VStr "https://ai.example/c0")])])
           [VDict [("links", VDict [("contentUrl", VStr "https://ai.example/c1")])]]
           (VDict [("contentUrl", VStr "https://ai.example/c0")])
           (VStr "https://ai.example/c0") content_body
           (VDict [("display", VStr "hello world")])
           [VDict [("display", VStr "second channel")]]
           (VStr "hello world")); try reflexivity.
  - split.
    + exists (VStr "Succeeded"). repeat split.
    + intros m Hm. exists (status_body "Running"), (VStr "Running").
      destruct m as [|[|m]]; [repeat split..|lia].
  - lia.
Defined.

End SpeechFacts.

(* ===================================================================== *)
(** * The document poll loop and the choice of the redacted artifact *)
(* ===================================================================== *)

Module DocumentFacts.
Import FunctionAppNew Samples MoreSamples.

(** The loop, one turn unfolded. *)
Lemma poll_unfold w url start_time st :
  poll w url start_time st =
  if (clock st - start_time <? max_wait_time)%N then
    match requests_get w url st with
    | (Raise e, st1) => (Error e, st1)
    | (Ok body, st1) =>
        match subscript body "status" with
        | Raise e => (Error e, st1)
        | Ok status =>
            if is_final status then (final_report status body, st1)
            else poll w url start_time (after_poll w url st)
        end
    end
  else (TimedOut, st).
Proof.
  rewrite poll_equation_1. unfold poll_unfold_clause_1, inspect.
  destruct (clock st - start_time <? max_wait_time)%N; reflexivity.
Qed.

(** On a job that never reaches a final status, a turn of the loop below
    the ceiling polls, pauses and goes round again. *)
Lemma poll_continues w url start_time st :
  never_final w ->
  (clock st - start_time < max_wait_time)%N ->
  poll w url start_time st = poll w url start_time (after_poll w url st).
Proof.
  intros Hnever Hlt. rewrite poll_unfold.
  apply N.ltb_lt in Hlt. rewrite Hlt. unfold requests_get.
  destruct (Hnever (gets st) url) as (body & status & Hget & Hstatus & Hfinal).
  now rewrite Hget, Hstatus, Hfinal.
Qed.

(** The invariant of the loop on such a job, by induction on the budget
    left: it ends in a time-out, at or after the ceiling; each poll costs at
    least the pause; the last poll began below the ceiling. *)
Lemma poll_never_final w url start_time :
  never_final w ->
  forall k st,
    budget start_time st <= k ->
    (start_time <= clock st)%N ->
    exists st',
      poll w url start_time st = (TimedOut, st') /\
      (max_wait_time <= clock st' - start_time)%N /\
      gets st <= gets st' /\
      (2 * N.of_nat (gets st' - gets st)
         <= max_wait_time - (clock st - start_time) + 1)%N /\
      ((clock st - start_time < max_wait_time)%N ->
         gets st < gets st' /\
         (clock st' - start_time
            < max_wait_time + poll_interval + get_latency w (gets st' - 1))%N) /\
      ((forall n, get_latency w n = 0%N) ->
         clock st' = (clock st + 2 * N.of_nat (gets st' - gets st))%N).
Proof.
  intros Hnever. induction k as [|k IH]; intros st Hk Hstart.
  - exists st. unfold budget, max_wait_time, poll_interval in *.
    rewrite poll_unfold.
    assert (E : (clock st - start_time <? 300)%N = false) by (apply N.ltb_ge; lia).
    unfold max_wait_time. rewrite E.
    split; [reflexivity|]. repeat split; try lia.
  - destruct (clock st - start_time <? max_wait_time)%N eqn:C.
    + apply N.ltb_lt in C. rewrite (poll_continues w url start_time st Hnever C).
      destruct (IH (after_poll w url st)) as (st' & E & Hceil & Hg & Hcount & Hlast & Hzero).
      * unfold budget, after_poll, sleep, requests_get, max_wait_time, poll_interval in *.
        cbn [clock snd] in *. lia.
      * unfold after_poll, sleep, requests_get. cbn [clock snd]. lia.
      * exists st'. split; [exact E|].
        unfold after_poll, sleep, requests_get, max_wait_time, poll_interval in *.
        cbn [clock gets snd] in *.
        split; [exact Hceil|]. split; [lia|]. split; [lia|]. split.
        -- intros _. split; [lia|].
           destruct (N.lt_ge_cases
                       (clock st + get_latency w (gets st) + 2 - start_time) 300)
             as [Hin|Hout].
           ++ apply Hlast in Hin. destruct Hin as [_ Hin]. exact Hin.
           ++ assert (Hg' : gets st' = S (gets st)) by lia.
              rewrite Hg' in *.
              replace (S (gets st) - 1) with (gets st) by lia.
              rewrite poll_unfold in E. cbn [clock] in E.
              assert (F : (clock st + get_latency w (gets st) + 2 - start_time <? 300)%N
                          = false) by (apply N.ltb_ge; exact Hout).
              unfold max_wait_time in E. rewrite F in E.
              inversion E. subst st'. cbn [clock]. lia.
        -- intros Hz. rewrite (Hzero Hz), (Hz (gets st)). lia.
    + exists st. rewrite poll_unfold, C. apply N.ltb_ge in C.
      unfold max_wait_time, poll_interval in *.
      split; [reflexivity|]. repeat split; try lia.
Qed.

(** C3 (as amended).  On a job that never reaches a final status the poll
    loop (a poll every 2 time units of pause, ceiling 300) does not poll for
    ever: after at most 150 polls it stops and reports the time-out.  No
    poll begins at or after the ceiling, so the report comes no earlier than
    the ceiling and later than it by less than the pause plus the time the
    last request took; it comes exactly at the ceiling, after 150 polls,
    when requests take no time. *)
Theorem poll_times_out w url st :
  never_final w ->
  exists st',
    poll_status w url st = (TimedOut, st') /\
    0 < gets st' - gets st <= 150 /\
    (max_wait_time <= clock st' - clock st)%N /\
    (clock st' - clock st
       < max_wait_time + poll_interval + get_latency w (gets st' - 1))%N /\
    ((forall n, get_latency w n = 0%N) ->
       (clock st' - clock st)%N = max_wait_time /\ gets st' - gets st = 150).
Proof.
  intros Hnever. unfold poll_status.
  destruct (poll_never_final w url (clock st) Hnever (budget (clock st) st) st)
    as (st' & E & Hceil & Hg & Hcount & Hlast & Hzero); [lia|lia|].
  exists st'. split; [exact E|].
  unfold max_wait_time, poll_interval in *.
  destruct Hlast as [Hpolled Hlate]; [lia|].
  split; [lia|]. split; [exact Hceil|]. split; [exact Hlate|].
  intros Hz. specialize (Hzero Hz). rewrite (Hz (gets st' - 1)) in Hlate. lia.
Qed.

Lemma running_world_never_final : never_final running_world.
Proof.
  intros n url. exists (status_body "running"), (VStr "running").
  repeat split.
Qed.

Lemma slow_running_world_never_final : never_final slow_running_world.
Proof.
  intros n url. exists (status_body "running"), (VStr "running").
  repeat split.
Qed.

Lemma poll_times_out_witness :
  exists st',
    poll_status running_world (VStr "https://lang.example/job") (initial 0)
      = (TimedOut, st') /\
    clock st' = 300%N /\ gets st' = 150.
Proof.
  destruct (poll_times_out running_world (VStr "https://lang.example/job") (initial 0)
              running_world_never_final) as (st' & E & _ & _ & _ & Z).
  destruct Z as [Zc Zg]; [reflexivity|].
  exists st'. split; [exact E|]. cbn [initial clock gets] in *.
  unfold max_wait_time in Zc. split; lia.
Defined.

(** C3 (as stated) fails: when the first request takes one time unit the
    polls fall on odd instants, the last one at 299, and the time-out is
    reported at 301, after the ceiling. *)
Lemma reports_by_ceiling_counterexample :
  never_final slow_running_world /\
  ~ reports_by_ceiling slow_running_world (VStr "https://lang.example/job") (initial 0).
Proof.
  split; [exact slow_running_world_never_final|].
  intros (st' & E & Hle).
  assert (R : poll_status slow_running_world (VStr "https://lang.example/job") (initial 0)
              = (TimedOut, {| clock := 301; gets := 150; sleeps := repeat 2%N 150 |}))
    by (vm_compute; reflexivity).
  rewrite R in E. inversion E. subst st'. cbn [clock initial] in Hle.
  unfold max_wait_time in Hle. lia.
Qed.

(** The loop over the targets ends with the location of the first target,
    in list order, whose location does not end with ".json", and with
    [None] when every target ends with it. *)
Lemma loop_ends_with_first_non_json json_targets :
  Forall json_target json_targets ->
  find_redacted_pdf_url json_targets = Ok VNone /\
  forall target others loc,
    method_get_default target "location" (VStr "") = Ok (VStr loc) ->
    endswith loc ".json" = false ->
    find_redacted_pdf_url (json_targets ++ target :: others) = Ok (VStr loc).
Proof.
  induction 1 as [|t ts [l [Hl Hj]] Hts [IHnone IHsome]].
  - split; [reflexivity|]. intros target others loc Hloc Hend.
    cbn [app find_redacted_pdf_url]. rewrite Hloc. cbn [bind]. now rewrite Hend.
  - split.
    + cbn [find_redacted_pdf_url]. rewrite Hl. cbn [bind]. now rewrite Hj.
    + intros target others loc Hloc Hend.
      cbn [app find_redacted_pdf_url]. rewrite Hl. cbn [bind]. rewrite Hj.
      cbn [negb]. now apply IHsome.
Qed.

(** From the job result to the loop: what the adapter selects is what the
    loop over the targets of the first document ends with, if it is not
    empty. *)
Lemma select_redacted_of_targets job targets :
  job_targets job targets ->
  select_redacted (VDict job) =
  match find_redacted_pdf_url targets with
  | Ok url => if truthy url then Ok (Redacted url) else Ok NoRedactedPdf
  | Raise e => Raise e
  end.
Proof.
  intros (tasks & item & other_items & results & doc & other_documents
          & Ht & Hi & Hr & Hd & Hg).
  unfold select_redacted, method_get, method_get_default, get_default, subscript.
  rewrite Ht. cbn [bind]. rewrite Hi. cbn [bind truthy first_item].
  rewrite Hr. cbn [bind]. rewrite Hd. cbn [bind truthy first_item].
  rewrite Hg. cbn [bind iter_items].
  destruct (find_redacted_pdf_url targets); reflexivity.
Qed.

(** C8 (as amended).  Of the targets of a succeeded job the adapter looks
    at the first one, in list order, whose location does not end with
    ".json": when that location is not empty it is the redacted artifact,
    whatever follows; when it is empty (or the target has no location), or
    when the location of every target ends with ".json", no artifact is
    selected. *)
Theorem first_non_json_target_is_taken job status json_targets :
  is_str status "succeeded" = true ->
  Forall json_target json_targets ->
  (job_targets job json_targets ->
     select_redacted (VDict job) = Ok NoRedactedPdf /\
     final_report status (VDict job) = JobSucceeded NoRedactedPdf) /\
  forall target others loc,
    job_targets job (json_targets ++ target :: others) ->
    method_get_default target "location" (VStr "") = Ok (VStr loc) ->
    endswith loc ".json" = false ->
    select_redacted (VDict job) =
      Ok (if String.eqb loc "" then NoRedactedPdf else Redacted (VStr loc)) /\
    final_report status (VDict job) =
      JobSucceeded (if String.eqb loc "" then NoRedactedPdf else Redacted (VStr loc)).
Proof.
  intros Hs Hjson.
  destruct (loop_ends_with_first_non_json json_targets Hjson) as [Hnone Hsome].
  split.
  - intros Hjob.
    assert (E : select_redacted (VDict job) = Ok NoRedactedPdf)
      by (rewrite (select_redacted_of_targets _ _ Hjob), Hnone; reflexivity).
    split; [exact E|]. unfold final_report. now rewrite Hs, E.
  - intros target others loc Hjob Hloc Hend.
    assert (E : select_redacted (VDict job) =
                Ok (if String.eqb loc "" then NoRedactedPdf else Redacted (VStr loc))).
    { rewrite (select_redacted_of_targets _ _ Hjob), (Hsome _ _ _ Hloc Hend).
      cbn [truthy]. now destruct (String.eqb loc ""). }
    split; [exact E|]. unfold final_report. now rewrite Hs, E.
Qed.

Lemma first_non_json_target_is_taken_witness :
  select_redacted
    (VDict (job_with [target "out/doc-1/bill2.json"; target "out/doc-1/bill2.pdf";
                      target "out/doc-1/other.pdf"])) =
    Ok (Redacted (VStr "out/doc-1/bill2.pdf")) /\
  final_report (VStr "succeeded")
    (VDict (job_with [target "out/doc-1/bill2.json"])) = JobSucceeded NoRedactedPdf.
Proof.
  assert (J : Forall json_target [target "out/doc-1/bill2.json"]).
  { constructor; [|constructor]. exists "out/doc-1/bill2.json". split; reflexivity. }
  split.
  - destruct (first_non_json_target_is_taken
                (job_with [target "out/doc-1/bill2.json"; target "out/doc-1/bill2.pdf";
                           target "out/doc-1/other.pdf"])
                (VStr "succeeded") _ eq_refl J) as [_ Hsome].
    apply (Hsome (target "out/doc-1/bill2.pdf") [target "out/doc-1/other.pdf"]
                 "out/doc-1/bill2.pdf"); try reflexivity.
    unfold job_targets, job_with. repeat eexists.
  - destruct (first_non_json_target_is_taken
                (job_with [target "out/doc-1/bill2.json"])
                (VStr "succeeded") _ eq_refl J) as [Hnone _].
    apply Hnone. unfold job_targets, job_with. repeat eexists.
Defined.

(** C8 (as stated) fails: when the first target has no location, the first
    location that does not end with ".json" is the empty one, and the
    adapter selects no artifact. *)
Lemma takes_first_non_json_counterexample :
  ~ takes_first_non_json (job_with [VDict []; target "out/doc-1/bill2.pdf"]).
Proof.
  intros H.
  specialize (H [] (VDict []) [target "out/doc-1/bill2.pdf"] "").
  assert (E : select_redacted
                (VDict (job_with [VDict []; target "out/doc-1/bill2.pdf"]))
              = Ok (Redacted (VStr ""))).
  { apply H; try reflexivity; [|constructor].
    unfold job_targets, job_with. repeat eexists. }
  discriminate E.
Qed.

(** A target without a location is taken by the loop with the empty
    location, which the test that follows treats as no artifact. *)
Lemma empty_location_is_no_artifact :
  find_redacted_pdf_url [VDict []; target "out/doc-1/bill2.pdf"] = Ok (VStr "") /\
  truthy (VStr "") = false.
Proof. split; reflexivity. Qed.

End DocumentFacts.

(* ===================================================================== *)
(** * The scenarios of the specification, evaluated *)
(* ===================================================================== *)

Module Scenarios.
Import Samples.

Example split_keeps_empty_segments :
  split "." "a..b." = ["a"; ""; "b"; ""].
Proof. reflexivity. Qed.

Example extension_of_nested_name :
  file_extension_of (VStr "archive.tar.GZ") = Ok "gz".
Proof. reflexivity. Qed.

Example extension_of_plain_name :
  file_extension_of (VStr "README") = Ok "".
Proof. reflexivity. Qed.

Example extension_of_missing_name :
  file_extension_of VNone = Raise TypeError.
Proof. reflexivity. Qed.

Example suffix_tests :
  endswith "out/bill2.json" ".json" = true /\
  endswith "out/bill2.pdf" ".json" = false /\
  endswith "json" ".json" = false /\
  endswith "" ".json" = false.
Proof. repeat split. Qed.

(** The audio scenario: call_42.wav is transcribed, summarised, persisted. *)
Example call_42_wav :
  execute happy_world (process_blob plain_config "i" (blob "call_42.wav")) 0 =
  (Completed (VDict [("blob", VDict (blob "call_42.wav"));
                     ("text_result", VStr "Summary: greeting");
                     ("task_result", VStr "final/call_42.json")]),
   [Attempt "speechToText" 1 0 100;
    Attempt "callAoai" 1 100 200;
    Attempt "writeToBlob" 1 200 300]).
Proof. reflexivity. Qed.

(** The unsupported scenario: report.xyz is skipped, nothing is attempted. *)
Example report_xyz :
  execute happy_world (process_blob plain_config "i" (blob "report.xyz")) 0 =
  (Completed (VDict [("blob", VDict (blob "report.xyz"));
                     ("error", VStr "Unsupported file type: xyz");
                     ("status", VStr "skipped")]),
   []).
Proof. reflexivity. Qed.

(** Two failures, then a success: three attempts, 5000 ms after each
    failure. *)
Example flaky_transcription :
  call_activity_with_retry flaky_world "speechToText" retry_options
    (VDict (blob "call_42.wav")) 0 =
  (Done (VStr "text"),
   [Attempt "speechToText" 1 0 100;
    Attempt "speechToText" 2 5100 5200;
    Attempt "speechToText" 3 10200 10300],
   10300%N).
Proof. reflexivity. Qed.

(** An HTTP body without a name starts an instance whose name is [None];
    the orchestration then raises on the test ['.' in blob_name]. *)
Example nameless_request :
  start_orchestrator_http new_instance_id {| body_json := Some (VDict []) |} [] =
    (Ok (CheckStatusResponse "instance-0"),
     [("process_blob",
       VDict [("name", VNone); ("container", VStr "bronze"); ("uri", VNone)])]) /\
  process_blob plain_config "instance-0"
    [("name", VNone); ("container", VStr "bronze"); ("uri", VNone)] = Throw TypeError.
Proof. split; reflexivity. Qed.

End Scenarios.

(* ===================================================================== *)
(** * Segments, occurrences and replacement *)
(* ===================================================================== *)

Module SplitFacts.
Import StringFacts.

Lemma split_without_sep sep s :
  contains_char sep s = false -> split sep s = [s].
Proof.
  induction s as [|c s IH]; simpl.
  - reflexivity.
  - intros H. apply orb_false_iff in H. destruct H as [Hc Hs].
    rewrite Hc, (IH Hs). reflexivity.
Qed.

(** The last segment of a split holds no separator. *)
Lemma last_segment_without_sep sep s :
  contains_char sep (last_segment (split sep s)) = false.
Proof.
  unfold last_segment. induction s as [|c s IH]; simpl.
  - reflexivity.
  - destruct (Ascii.eqb c sep) eqn:E.
    + destruct (split sep s) eqn:S0; [now destruct (split_nonempty sep s)|].
      exact IH.
    + destruct (split sep s) as [|seg segs] eqn:S0; [now destruct (split_nonempty sep s)|].
      destruct segs as [|seg' segs'].
      * simpl in *. now rewrite E, IH.
      * exact IH.
Qed.

(** Splitting what is joined by a separator: the segments of both sides. *)
Lemma split_app sep p e :
  split sep (p ++ String sep e) = (split sep p ++ split sep e)%list.
Proof.
  induction p as [|c p IH]; simpl.
  - now rewrite Ascii.eqb_refl.
  - rewrite IH. destruct (Ascii.eqb c sep); [reflexivity|].
    destruct (split sep p) as [|seg segs] eqn:S0;
      [now destruct (split_nonempty sep p)|]. reflexivity.
Qed.

(** What follows the last separator is the last segment. *)
Lemma last_segment_after sep p e :
  contains_char sep e = false ->
  last_segment (split sep (p ++ String sep e)) = e.
Proof.
  intros He. unfold last_segment.
  rewrite split_app, (split_without_sep _ _ He). apply last_last.
Qed.

Lemma contains_char_app c s t :
  contains_char c (s ++ t) = contains_char c s || contains_char c t.
Proof.
  induction s as [|a s IH]; simpl.
  - reflexivity.
  - now rewrite IH, orb_assoc.
Qed.

Lemma strip_prefix_app p s : strip_prefix p (p ++ s) = Some s.
Proof.
  induction p as [|a p IH]; simpl.
  - reflexivity.
  - now rewrite Ascii.eqb_refl.
Qed.

Lemma strip_prefix_some p s r : strip_prefix p s = Some r -> s = (p ++ r)%string.
Proof.
  revert s. induction p as [|a p IH]; intros [|b s] H; simpl in H;
    try discriminate; try (inversion H; reflexivity).
  destruct (Ascii.eqb a b) eqn:E; [|discriminate].
  apply Ascii.eqb_eq in E. subst b. simpl. now rewrite (IH _ H).
Qed.

(** [partition] cuts at an occurrence of the separator. *)
Lemma partition_some sep s before after :
  partition sep s = Some (before, after) -> s = (before ++ sep ++ after)%string.
Proof.
  revert before. induction s as [|c s IH]; intros before; cbn [partition].
  - destruct (strip_prefix sep "") eqn:E; [|discriminate].
    intros H. inversion H. subst. now apply strip_prefix_some in E.
  - destruct (strip_prefix sep (String c s)) eqn:E.
    + intros H. inversion H. subst. now apply strip_prefix_some in E.
    + destruct (partition sep s) as [[b a]|] eqn:P; [|discriminate].
      intros H. inversion H. subst. simpl. now rewrite (IH _ eq_refl).
Qed.

(** [partition] finds the separator wherever it occurs. *)
Lemma partition_finds sep a b : partition sep (a ++ sep ++ b) <> None.
Proof.
  induction a as [|c a IH].
  - simpl. destruct (sep ++ b)%string eqn:E; cbn [partition];
      rewrite <- E, strip_prefix_app; discriminate.
  - cbn [append partition].
    destruct (strip_prefix sep (String c (a ++ sep ++ b))); [discriminate|].
    destruct (partition sep (a ++ sep ++ b)) as [[? ?]|]; [discriminate|].
    now destruct IH.
Qed.

Lemma partition_none sep s :
  (forall a b, s <> (a ++ sep ++ b)%string) -> partition sep s = None.
Proof.
  intros H. destruct (partition sep s) as [[b a]|] eqn:P; [|reflexivity].
  apply partition_some in P. now destruct (H b a).
Qed.

(** A pattern whose first character does not occur in [s] is not in [s]. *)
Lemma partition_without_head c sep s :
  contains_char c s = false -> partition (String c sep) s = None.
Proof.
  induction s as [|a s IH]; intros H; cbn [partition strip_prefix].
  - reflexivity.
  - simpl in H. apply orb_false_iff in H. destruct H as [Ha Hs].
    rewrite Ascii.eqb_sym, Ha, (IH Hs). reflexivity.
Qed.

(** After a stretch without its first character, the pattern is found
    where it stands. *)
Lemma partition_at_head c sep stem rest :
  contains_char c stem = false ->
  partition (String c sep) (stem ++ String c (sep ++ rest)) = Some (stem, rest).
Proof.
  induction stem as [|a stem IH]; intros H.
  - cbn [append partition strip_prefix].
    now rewrite Ascii.eqb_refl, strip_prefix_app.
  - simpl in H. apply orb_false_iff in H. destruct H as [Ha Hs].
    cbn [append partition strip_prefix].
    rewrite Ascii.eqb_sym, Ha, (IH Hs). reflexivity.
Qed.

Lemma replace_at_none c old new s :
  partition (String c old) s = None -> replace_at c old new s = s.
Proof.
  intros H. rewrite replace_at_equation_1.
  unfold replace_at_unfold_clause_1, inspect. revert H.
  destruct (partition (String c old) s) as [[b a]|]; intros H;
    [discriminate|reflexivity].
Qed.

Lemma replace_at_some c old new s before after :
  partition (String c old) s = Some (before, after) ->
  replace_at c old new s = (before ++ new ++ replace_at c old new after)%string.
Proof.
  intros H. rewrite replace_at_equation_1 at 1.
  unfold replace_at_unfold_clause_1, inspect. revert H.
  destruct (partition (String c old) s) as [[b a]|]; intros H;
    [inversion H; reflexivity|discriminate].
Qed.

Lemma split_at_none c sep s :
  partition (String c sep) s = None -> split_at c sep s = [s].
Proof.
  intros H. rewrite split_at_equation_1.
  unfold split_at_unfold_clause_1, inspect. revert H.
  destruct (partition (String c sep) s) as [[b a]|]; intros H;
    [discriminate|reflexivity].
Qed.

Lemma split_at_some c sep s before after :
  partition (String c sep) s = Some (before, after) ->
  split_at c sep s = before :: split_at c sep after.
Proof.
  intros H. rewrite split_at_equation_1 at 1.
  unfold split_at_unfold_clause_1, inspect. revert H.
  destruct (partition (String c sep) s) as [[b a]|]; intros H;
    [inversion H; reflexivity|discriminate].
Qed.

End SplitFacts.

(* ===================================================================== *)
(** * More on [process_blob]: extensions, failures, call paths *)
(* ===================================================================== *)

Module RoutingFacts.
Import StringFacts SplitFacts ProcessBlobFacts Samples.

(** X1.  For a name that is a string the extension is always computed; it
    holds no dot and no upper-case ASCII letter (lowering it changes
    nothing). *)
Theorem file_extension_is_plain blob_name :
  exists ext,
    file_extension_of (VStr blob_name) = Ok ext /\
    contains_char "." ext = false /\
    lower ext = ext.
Proof.
  rewrite file_extension_of_str.
  destruct (contains_char "." blob_name).
  - eexists. split; [reflexivity|]. split.
    + rewrite contains_dot_lower. apply last_segment_without_sep.
    + apply lower_idem.
  - exists "". repeat split.
Qed.

(** X2.  Only what follows the last dot counts: for any prefix and any
    dot-free ASCII suffix [e], the extension of [prefix.e] is [e] lowered.
    (On ASCII text the byte-wise [lower] is [str.lower()], whatever
    precedes it in the name.) *)
Theorem file_extension_is_last_segment stem e :
  contains_char "." e = false ->
  ascii_only e = true ->
  file_extension_of (VStr (stem ++ "." ++ e)) = Ok (lower e).
Proof.
  intros He _. rewrite file_extension_of_str.
  rewrite contains_char_app. simpl. rewrite orb_true_r.
  change ("." ++ e)%string with (String "." e).
  now rewrite last_segment_after.
Qed.

Lemma file_extension_is_last_segment_witness :
  file_extension_of (VStr "minutes.pdf.WAV") = Ok "wav".
Proof.
  apply (file_extension_is_last_segment "minutes.pdf" "WAV"); reflexivity.
Defined.

(** X3.  With the vision toggle enabled, every file that the multimodal
    branch does not take makes the orchestration raise
    [UnboundLocalError] for [text_result]; no activity is called. *)
Theorem vision_toggle_raises config id blob_input blob_name ext mm :
  get_default blob_input "name" (VStr "") = VStr blob_name ->
  file_extension_of (VStr blob_name) = Ok ext ->
  toggle config "AOAI_MULTI_MODAL" = Ok mm ->
  mm && str_in ext document_extensions = false ->
  toggle config "AI_VISION_ENABLED" = Ok true ->
  process_blob config id blob_input = Throw (UnboundLocalError "text_result") /\
  forall path, calls_to (process_blob config id blob_input) path -> path = [].
Proof.
  intros Hname Hext Hmm Hno Hv.
  assert (E : process_blob config id blob_input = Throw (UnboundLocalError "text_result")).
  { rewrite (process_blob_unfold _ _ _ _ _ _ _ Hname Hext Hmm Hv). now rewrite Hno. }
  split; [exact E|]. intros path H. rewrite E in H. now inversion H.
Qed.

Lemma vision_toggle_raises_witness :
  process_blob (config_with "false" "TRUE") "i" (blob "call_42.wav") =
  Throw (UnboundLocalError "text_result").
Proof.
  apply (vision_toggle_raises (config_with "false" "TRUE") "i" (blob "call_42.wav")
           "call_42.wav" "wav" false); reflexivity.
Defined.

(** X4.  A descriptor whose name is [None], a number or a boolean makes
    the orchestration raise [TypeError] at once, whatever the
    configuration: the test for a dot comes before anything else. *)
Theorem non_string_name_raises config id blob_input v :
  dict_get blob_input "name" = Some v ->
  v = VNone \/ (exists b, v = VBool b) \/ (exists z, v = VInt z) ->
  process_blob config id blob_input = Throw TypeError /\
  forall path, calls_to (process_blob config id blob_input) path -> path = [].
Proof.
  intros Hname Hv.
  assert (E : process_blob config id blob_input = Throw TypeError).
  { unfold process_blob, get_default. rewrite Hname.
    destruct Hv as [->|[[b ->]|[z ->]]]; reflexivity. }
  split; [exact E|]. intros path H. rewrite E in H. now inversion H.
Qed.

Lemma non_string_name_raises_witness :
  process_blob multimodal_config "i"
    [("name", VNone); ("container", VStr "bronze"); ("uri", VNone)] = Throw TypeError.
Proof.
  apply (non_string_name_raises multimodal_config "i"
           [("name", VNone); ("container", VStr "bronze"); ("uri", VNone)] VNone).
  - reflexivity.
  - now left.
Defined.

(** The paths of steps 2 and 3, with what flows along them. *)
Lemma enrich_and_persist_paths config id blob_input text_result path :
  calls_to (enrich_and_persist config id blob_input text_result) path ->
  let aoai_input :=
    VDict [("text_result", text_result); ("instance_id", VStr id)] in
  path = [("callAoai", aoai_input, None)] \/
  (exists aoai_output,
     path = [("callAoai", aoai_input, Some aoai_output)] /\
     dict_get blob_input "name" = None) \/
  (exists aoai_output name task,
     dict_get blob_input "name" = Some name /\
     path = [("callAoai", aoai_input, Some aoai_output);
             ("writeToBlob",
              VDict [("json_str", aoai_output); ("blob_name", name);
                     ("final_output_container", FINAL_OUTPUT_CONTAINER config)],
              task)]).
Proof.
  unfold enrich_and_persist. intros H. inversion H as [| | |? ? ? ? aoai rest Hrest]; subst.
  - now left.
  - right. unfold subscript in Hrest.
    destruct (dict_get blob_input "name") as [name|] eqn:Hn.
    + right. exists aoai, name.
      inversion Hrest as [| | |? ? ? ? task rest' Hrest']; subst.
      * now exists None.
      * exists (Some task). split; [reflexivity|]. now inversion Hrest'.
    + left. exists aoai. split; [|reflexivity]. now inversion Hrest.
Qed.

(** X5.  Whatever the configuration, the descriptor and the results of
    the activities, an instance calls at most three activities, in this
    order: one extraction activity, then enrichment, then persistence. *)
Theorem calls_are_in_order config id blob_input path :
  calls_to (process_blob config id blob_input) path ->
  called path = [] \/
  exists extraction,
    In extraction extraction_activities /\
    (called path = [extraction] \/
     called path = [extraction; "callAoai"] \/
     called path = [extraction; "callAoai"; "writeToBlob"]).
Proof.
  assert (K : forall extraction input,
             In extraction extraction_activities ->
             calls_to (CallActivityWithRetry extraction retry_options input
                         (enrich_and_persist config id blob_input)) path ->
             exists x, In x extraction_activities /\
               (called path = [x] \/ called path = [x; "callAoai"] \/
                called path = [x; "callAoai"; "writeToBlob"])).
  { intros extraction input Hin H. exists extraction. split; [exact Hin|].
    inversion H as [| | |? ? ? ? text rest Hrest]; subst.
    - now left.
    - right. apply enrich_and_persist_paths in Hrest.
      destruct Hrest as [->|[(a & -> & _)|(a & n & t & _ & ->)]];
        [left|left|right]; reflexivity. }
  unfold process_blob.
  destruct (file_extension_of _) as [ext|]; [|intros H; inversion H; now left].
  destruct (toggle config "AOAI_MULTI_MODAL") as [mm|]; [|intros H; inversion H; now left].
  destruct (mm && str_in ext document_extensions).
  { intros H. right. eapply K; [|exact H]. simpl. auto. }
  destruct (toggle config "AI_VISION_ENABLED") as [[]|];
    try (intros H; inversion H; now left).
  destruct (str_in ext audio_extensions).
  { intros H. right. eapply K; [|exact H]. simpl. auto. }
  destruct (str_in ext document_extensions).
  { intros H. right. eapply K; [|exact H]. simpl. auto. }
  intros H. inversion H. now left.
Qed.

Lemma calls_are_in_order_witness :
  called [("speechToText", VDict (blob "call_42.wav"), Some (VStr "hello world"));
          ("callAoai",
           VDict [("text_result", VStr "hello world"); ("instance_id", VStr "i")],
           None)] = [] \/
  exists extraction,
    In extraction extraction_activities /\
    (called [("speechToText", VDict (blob "call_42.wav"), Some (VStr "hello world"));
             ("callAoai",
              VDict [("text_result", VStr "hello world"); ("instance_id", VStr "i")],
              None)] = [extraction] \/
     called [("speechToText", VDict (blob "call_42.wav"), Some (VStr "hello world"));
             ("callAoai",
              VDict [("text_result", VStr "hello world"); ("instance_id", VStr "i")],
              None)] = [extraction; "callAoai"] \/
     called [("speechToText", VDict (blob "call_42.wav"), Some (VStr "hello world"));
             ("callAoai",
              VDict [("text_result", VStr "hello world"); ("instance_id", VStr "i")],
              None)] = [extraction; "callAoai"; "writeToBlob"]).
Proof.
  apply (calls_are_in_order plain_config "i" (blob "call_42.wav")).
  apply calls_next. apply calls_failed.
Defined.

(** X6.  What flows between the steps: enrichment receives the result of
    the extraction and the instance id; persistence receives the result of
    the enrichment, and its destination is the name of the descriptor in
    the configured output container, whatever the activities returned. *)
Theorem results_flow_to_next_step config id blob_input path name input result :
  calls_to (process_blob config id blob_input) path ->
  In (name, input, result) path ->
  (name = "callAoai" ->
     exists extraction extraction_input text_result,
       hd_error path = Some (extraction, extraction_input, Some text_result) /\
       input = VDict [("text_result", text_result); ("instance_id", VStr id)]) /\
  (name = "writeToBlob" ->
     exists aoai_input aoai_output blob_name,
       In ("callAoai", aoai_input, Some aoai_output) path /\
       dict_get blob_input "name" = Some blob_name /\
       input = VDict [("json_str", aoai_output); ("blob_name", blob_name);
                      ("final_output_container", FINAL_OUTPUT_CONTAINER config)]).
Proof.
  assert (K : forall extraction ext_input,
             In extraction extraction_activities ->
             calls_to (CallActivityWithRetry extraction retry_options ext_input
                         (enrich_and_persist config id blob_input)) path ->
             In (name, input, result) path ->
             (name = "callAoai" ->
                exists extraction extraction_input text_result,
                  hd_error path = Some (extraction, extraction_input, Some text_result) /\
                  input = VDict [("text_result", text_result); ("instance_id", VStr id)]) /\
             (name = "writeToBlob" ->
                exists aoai_input aoai_output blob_name,
                  In ("callAoai", aoai_input, Some aoai_output) path /\
                  dict_get blob_input "name" = Some blob_name /\
                  input = VDict [("json_str", aoai_output); ("blob_name", blob_name);
                                 ("final_output_container",
                                  FINAL_OUTPUT_CONTAINER config)])).
  { intros extraction ext_input Hx H Hin.
    assert (Hne1 : extraction <> "callAoai")
      by (simpl in Hx; intros ->; destruct Hx as [Hx|[Hx|[Hx|[]]]]; discriminate).
    assert (Hne2 : extraction <> "writeToBlob")
      by (simpl in Hx; intros ->; destruct Hx as [Hx|[Hx|[Hx|[]]]]; discriminate).
    inversion H as [| | |? ? ? ? text rest Hrest]; subst.
    - destruct Hin as [Hin|[]]. inversion Hin; subst. split; intros ->; contradiction.
    - apply enrich_and_persist_paths in Hrest. cbn zeta in Hrest.
      destruct Hin as [Hin|Hin]; [inversion Hin; subst; split; intros ->; contradiction|].
      destruct Hrest as [->|[(a & -> & _)|(a & n & t & Hn & ->)]].
      + destruct Hin as [Hin|[]]. inversion Hin; subst. split; [|discriminate].
        intros _. now exists extraction, ext_input, text.
      + destruct Hin as [Hin|[]]. inversion Hin; subst. split; [|discriminate].
        intros _. now exists extraction, ext_input, text.
      + destruct Hin as [Hin|[Hin|[]]]; inversion Hin; subst.
        * split; [|discriminate]. intros _. now exists extraction, ext_input, text.
        * split; [discriminate|]. intros _. eexists _, a, n.
          split; [right; left; reflexivity|]. split; [exact Hn|reflexivity]. }
  unfold process_blob.
  destruct (file_extension_of _) as [ext|].
  2:{ intros H Hin. inversion H; subst. destruct Hin. }
  destruct (toggle config "AOAI_MULTI_MODAL") as [mm|].
  2:{ intros H Hin. inversion H; subst. destruct Hin. }
  destruct (mm && str_in ext document_extensions).
  { intros H. eapply K; [|exact H]. simpl. auto. }
  destruct (toggle config "AI_VISION_ENABLED") as [[]|];
    try (intros H Hin; inversion H; subst; now destruct Hin).
  destruct (str_in ext audio_extensions).
  { intros H. eapply K; [|exact H]. simpl. auto. }
  destruct (str_in ext document_extensions).
  { intros H. eapply K; [|exact H]. simpl. auto. }
  intros H Hin. inversion H; subst. destruct Hin.
Qed.

Lemma results_flow_to_next_step_witness :
  exists aoai_input aoai_output blob_name,
    In ("callAoai", aoai_input, Some aoai_output)
       [("speechToText", VDict (blob "call_42.wav"), Some (VStr "hello world"));
        ("callAoai",
         VDict [("text_result", VStr "hello world"); ("instance_id", VStr "i")],
         Some (VStr "Summary: greeting"));
        ("writeToBlob",
         VDict [("json_str", VStr "Summary: greeting");
                ("blob_name", VStr "call_42.wav");
                ("final_output_container", VStr "final")],
         Some (VStr "final/call_42.json"))] /\
    dict_get (blob "call_42.wav") "name" = Some blob_name /\
    VDict [("json_str", VStr "Summary: greeting");
           ("blob_name", VStr "call_42.wav");
           ("final_output_container", VStr "final")] =
    VDict [("json_str", aoai_output); ("blob_name", blob_name);
           ("final_output_container", FINAL_OUTPUT_CONTAINER plain_config)].
Proof.
  refine (proj2 (results_flow_to_next_step plain_config "i" (blob "call_42.wav")
                   _ "writeToBlob" _ (Some (VStr "final/call_42.json")) _ _) eq_refl).
  - apply calls_next. apply calls_next. apply calls_next. apply calls_returned.
  - right. right. left. reflexivity.
Defined.

(** X7.  Which path is selected depends on the configuration and on the
    name of the descriptor only: container, URI and instance id play no
    part in it. *)
Theorem routing_depends_on_name_only config id1 id2 blob1 blob2 :
  get_default blob1 "name" (VStr "") = get_default blob2 "name" (VStr "") ->
  selected_path (process_blob config id1 blob1) =
  selected_path (process_blob config id2 blob2).
Proof.
  intros H. unfold process_blob. rewrite H.
  destruct (file_extension_of _) as [ext|]; [|reflexivity].
  destruct (toggle config "AOAI_MULTI_MODAL") as [mm|]; [|reflexivity].
  destruct (mm && str_in ext document_extensions); [reflexivity|].
  destruct (toggle config "AI_VISION_ENABLED") as [[]|]; try reflexivity.
  destruct (str_in ext audio_extensions); [reflexivity|].
  destruct (str_in ext document_extensions); reflexivity.
Qed.

Lemma routing_depends_on_name_only_witness :
  selected_path (process_blob plain_config "i" (blob "scan.pdf")) =
  selected_path (process_blob plain_config "j"
                   [("uri", VNone); ("name", VStr "scan.pdf")]).
Proof.
  apply (routing_depends_on_name_only plain_config "i" "j" (blob "scan.pdf")
           [("uri", VNone); ("name", VStr "scan.pdf")]).
  reflexivity.
Defined.

End RoutingFacts.

(* ===================================================================== *)
(** * More on the HTTP trigger *)
(* ===================================================================== *)

Module TriggerFacts.
Import Samples.

(** X8.  Whatever the request, the trigger keeps the instances started
    before, starts at most one more, always of [process_blob] and always in
    the container "bronze"; it answers with a status-check response exactly
    when it has started one. *)
Theorem trigger_starts_at_most_one new_id req client :
  exists added,
    snd (start_orchestrator_http new_id req client) = (client ++ added)%list /\
    (added = [] /\
     (forall instance_id,
        fst (start_orchestrator_http new_id req client)
          <> Ok (CheckStatusResponse instance_id)) \/
     exists input,
       added = [("process_blob", input)] /\
       subscript input "container" = Ok (VStr "bronze") /\
       fst (start_orchestrator_http new_id req client) =
         Ok (CheckStatusResponse (new_id (List.length client)))).
Proof.
  unfold start_orchestrator_http, req_get_json.
  destruct (body_json req) as [body|].
  - destruct body; try (exists []; rewrite app_nil_r; split; [reflexivity|];
                        left; split; [reflexivity|]; intros i; discriminate).
    eexists. split; [reflexivity|]. right. eexists. repeat split.
  - exists []. rewrite app_nil_r. split; [reflexivity|].
    left. split; [reflexivity|]. intros i. discriminate.
Qed.

(** The container named in the request plays no part, and neither
    does any field besides name and uri: two JSON objects with the same
    name and uri start the same instance input. *)
Theorem trigger_reads_name_and_uri_only new_id client d1 d2 :
  get d1 "name" = get d2 "name" ->
  get d1 "uri" = get d2 "uri" ->
  start_orchestrator_http new_id {| body_json := Some (VDict d1) |} client =
  start_orchestrator_http new_id {| body_json := Some (VDict d2) |} client.
Proof.
  intros Hn Hu. unfold get in Hn, Hu.
  unfold start_orchestrator_http, req_get_json, method_get, method_get_default.
  cbn [body_json bind]. now rewrite Hn, Hu.
Qed.

Lemma trigger_reads_name_and_uri_only_witness :
  start_orchestrator_http new_instance_id
    {| body_json := Some (VDict [("name", VStr "a.pdf"); ("container", VStr "gold")]) |} [] =
  start_orchestrator_http new_instance_id
    {| body_json := Some (VDict [("name", VStr "a.pdf")]) |} [].
Proof.
  apply (trigger_reads_name_and_uri_only new_instance_id []
           [("name", VStr "a.pdf"); ("container", VStr "gold")]
           [("name", VStr "a.pdf")]); reflexivity.
Defined.

(** X9.  A JSON object without a name (or whose name is null) is
    accepted: the trigger starts an instance and answers with its
    status-check response; that instance then raises [TypeError] before it
    calls any activity, whatever the configuration. *)
Theorem nameless_request_starts_failing_instance new_id client d config id :
  get d "name" = VNone ->
  exists input,
    start_orchestrator_http new_id {| body_json := Some (VDict d) |} client =
      (Ok (CheckStatusResponse (new_id (List.length client))),
       (client ++ [("process_blob", VDict input)])%list) /\
    process_blob config id input = Throw TypeError.
Proof.
  intros Hn. unfold get in Hn. eexists. split.
  - unfold start_orchestrator_http, req_get_json, method_get, method_get_default.
    cbn [body_json bind]. rewrite Hn. reflexivity.
  - reflexivity.
Qed.

Lemma nameless_request_starts_failing_instance_witness :
  exists input,
    start_orchestrator_http new_instance_id
      {| body_json := Some (VDict [("uri", VStr "https://store.example/bronze/a.pdf")]) |} [] =
      (Ok (CheckStatusResponse "instance-0"), [("process_blob", VDict input)]) /\
    process_blob multimodal_config "instance-0" input = Throw TypeError.
Proof.
  apply (nameless_request_starts_failing_instance new_instance_id []
           [("uri", VStr "https://store.example/bronze/a.pdf")]
           multimodal_config "instance-0").
  reflexivity.
Defined.

End TriggerFacts.

(* ===================================================================== *)
(** * More on the speech adapter *)
(* ===================================================================== *)

Module SpeechMore.
Import SpeechToText SpeechFacts Samples MoreSamples.

Lemma none_final_shift_any final w url st n d :
  none_final final w url st (S n) ->
  none_final final w url (sleep d (snd (requests_get w url st))) n.
Proof.
  intros H m Hm. destruct (H (S m)) as (b & s & Hb & Hs & Hf); [lia|].
  exists b, s. cbn [sleep requests_get snd gets].
  replace (S (gets st) + m) with (gets st + S m) by lia. repeat split; assumption.
Qed.

(** X10.  When a poll fails (the request raises, or the answer has no
    status to read) after polls that all told the job was still going, the
    loop raises that exception at once: it has made one request per poll
    and slept once per earlier poll. *)
Theorem wait_raises_at_failing_poll w url check_interval :
  forall n st e,
    none_final stops_on w url st n ->
    poll_fails w url st n e ->
    forall fuel, n < fuel ->
      exists st',
        wait_for_transcription w fuel url check_interval st = Some (Raise e, st') /\
        gets st' = gets st + S n /\
        sleeps st' = (repeat check_interval n ++ sleeps st)%list.
Proof.
  induction n as [|n IH]; intros st e Hnone Hfail fuel Hfuel.
  - destruct fuel as [|fuel]; [lia|]. unfold poll_fails in Hfail.
    rewrite Nat.add_0_r in Hfail.
    cbn [wait_for_transcription]. unfold mbind at 1, http_get, requests_get.
    destruct Hfail as [Hget|(b & Hget & Hs)]; rewrite Hget.
    + eexists. split; [reflexivity|]. simpl. split; [lia|reflexivity].
    + unfold mbind at 1, lift. rewrite Hs.
      eexists. split; [reflexivity|]. simpl. split; [lia|reflexivity].
  - destruct fuel as [|fuel]; [lia|].
    destruct (Hnone 0) as (b & s & Hb & Hs & Hns); [lia|].
    rewrite Nat.add_0_r in Hb.
    rewrite (wait_continues w fuel url check_interval st b s Hb Hs Hns).
    set (st2 := sleep check_interval (snd (requests_get w url st))).
    destruct (IH st2 e) with (fuel := fuel) as (st' & E & Hg & Hsl).
    + apply none_final_shift_any. exact Hnone.
    + unfold poll_fails in *. cbn [st2 sleep requests_get snd gets] in *.
      subst st2. cbn [sleep requests_get snd gets].
      replace (S (gets st) + n) with (gets st + S n) by lia. exact Hfail.
    + lia.
    + exists st'. split; [exact E|]. subst st2. cbn [sleep requests_get snd gets sleeps] in *.
      split; [lia|]. rewrite Hsl. apply repeat_shift.
Qed.

Lemma wait_raises_at_failing_poll_witness :
  exists st',
    wait_for_transcription broken_poll_world 9 (VStr "https://ai.example/job")
      default_check_interval (initial 0) = Some (Raise (KeyError "status"), st') /\
    gets st' = 3 /\ sleeps st' = [10%N; 10%N].
Proof.
  apply (wait_raises_at_failing_poll broken_poll_world (VStr "https://ai.example/job")
           default_check_interval 2 (initial 0) (KeyError "status")).
  - intros m Hm. exists (status_body "Running"), (VStr "Running").
    destruct m as [|[|m]]; [repeat split..|lia].
  - right. eexists. split; reflexivity.
  - lia.
Defined.

(** X11.  The loop has no ceiling: while every poll tells a status other
    than Succeeded and Failed it never returns, however many polls the
    model allows it. *)
Theorem wait_has_no_ceiling w url check_interval :
  forall fuel st,
    (forall n, none_final stops_on w url st n) ->
    wait_for_transcription w fuel url check_interval st = None.
Proof.
  induction fuel as [|fuel IH]; intros st Hnone.
  - reflexivity.
  - destruct (Hnone 1 0) as (b & s & Hb & Hs & Hns); [lia|].
    rewrite Nat.add_0_r in Hb.
    rewrite (wait_continues w fuel url check_interval st b s Hb Hs Hns).
    apply IH. intros n. apply none_final_shift_any. apply Hnone.
Qed.

Lemma wait_has_no_ceiling_witness :
  wait_for_transcription cancelled_world 1000 (VStr "https://ai.example/job")
    default_check_interval (initial 0) = None.
Proof.
  apply (wait_has_no_ceiling cancelled_world (VStr "https://ai.example/job")
           default_check_interval 1000 (initial 0)).
  intros n m Hm. exists (status_body "Cancelled"), (VStr "Cancelled"). repeat split.
Defined.

(** The activity up to the end of the wait, when the job gets a status the
    loop stops on. *)
Lemma run_after_wait config w d st token response transcription_url n final_status :
  get_token config "https://cognitiveservices.azure.com/.default" = Ok token ->
  post_json w (submit_url config) (payload (get d "uri")) = Ok response ->
  subscript response "self" = Ok transcription_url ->
  first_final stops_on w transcription_url st n final_status ->
  (forall status, subscript final_status "status" = Ok status ->
                  is_str status "Failed" = true -> error_printable final_status) ->
  forall fuel, n < fuel ->
    exists st1,
      run config w fuel (VDict d) st = fetch_text w final_status st1 /\
      gets st1 = gets st + S n.
Proof.
  intros Htok Hpost Hself Hfirst Hprint fuel Hfuel.
  destruct (wait_returns_at_first w transcription_url default_check_interval
              n st final_status Hfirst Hprint) with (fuel := fuel)
    as (st1 & E & G & _); [exact Hfuel|].
  exists st1. split; [|exact G].
  unfold run. unfold mbind at 1 2 3 4 5 6. unfold lift, method_get, method_get_default.
  fold (get d "uri"). rewrite Htok, Hpost, Hself.
  unfold mbind at 1. rewrite E. reflexivity.
Qed.

(** X12.  A job that ends Failed is not reported as a failure: the
    activity goes on to read the result files of the failed job and, when
    they are there, returns the text of the first phrase as for a job that
    succeeded. *)
Theorem run_reads_files_of_failed_job config w d st token response transcription_url
    n final_status links files_url files_response first_file other_files
    file_links content_url content_response first_phrase other_phrases text :
  get_token config "https://cognitiveservices.azure.com/.default" = Ok token ->
  post_json w (submit_url config) (payload (get d "uri")) = Ok response ->
  subscript response "self" = Ok transcription_url ->
  first_final stops_on w transcription_url st n final_status ->
  subscript final_status "status" = Ok (VStr "Failed") ->
  error_printable final_status ->
  subscript final_status "links" = Ok links ->
  subscript links "files" = Ok files_url ->
  get_json w (gets st + n + 1) files_url = Ok files_response ->
  subscript files_response "values" = Ok (VList (first_file :: other_files)) ->
  subscript first_file "links" = Ok file_links ->
  subscript file_links "contentUrl" = Ok content_url ->
  get_json w (gets st + n + 2) content_url = Ok content_response ->
  subscript content_response "combinedRecognizedPhrases"
    = Ok (VList (first_phrase :: other_phrases)) ->
  subscript first_phrase "display" = Ok text ->
  forall fuel, n < fuel ->
    exists st',
      run config w fuel (VDict d) st = Some (Ok text, st') /\
      gets st' = gets st + n + 3.
Proof.
  intros Htok Hpost Hself Hfirst Hfailed Hprint H1 H2 H3 H4 H5 H6 H7 H8 H9 fuel Hfuel.
  destruct (run_after_wait config w d st token response transcription_url n final_status
              Htok Hpost Hself Hfirst) with (fuel := fuel) as (st1 & E & G).
  - intros _ _ _. exact Hprint.
  - exact Hfuel.
  - rewrite E.
    destruct (fetch_text_returns w final_status st1 links files_url files_response
                first_file other_files file_links content_url content_response
                first_phrase other_phrases text) as (st' & F & G'); try assumption.
    + rewrite G. replace (gets st + S n) with (gets st + n + 1) by lia. exact H3.
    + rewrite G. replace (S (gets st + S n)) with (gets st + n + 2) by lia. exact H7.
    + exists st'. split; [exact F|lia].
Qed.

Lemma run_reads_files_of_failed_job_witness :
  exists st',
    run plain_config failing_world 5 (VDict (blob "call_42.wav")) (initial 0)
      = Some (Ok (VStr "hello world"), st') /\
    gets st' = 4.
Proof.
  apply (run_reads_files_of_failed_job plain_config failing_world (blob "call_42.wav")
           (initial 0) "token" (VDict [("self", VStr "https://ai.example/job")])
           (VStr "https://ai.example/job") 1 (status_body "Failed")
           (VDict [("files", VStr "https://ai.example/files")])
           (VStr "https://ai.example/files") files_body
           (VDict [("links", VDict [("contentUrl", VStr "https://ai.example/c0")])])
           [VDict [("links", VDict [("contentUrl", VStr "https://ai.example/c1")])]]
           (VDict [("contentUrl", VStr "https://ai.example/c0")])
           (VStr "https://ai.example/c0") content_body
           (VDict [("display", VStr "hello world")])
           [VDict [("display", VStr "second channel")]]
           (VStr "hello world")); try reflexivity.
  - split.
    + exists (VStr "Failed"). repeat split.
    + intros m Hm. exists (status_body "Running"), (VStr "Running").
      destruct m as [|m]; [repeat split|lia].
  - exists []. reflexivity.
  - lia.
Defined.

(** X13.  When the finished job lists no result file, the activity raises
    [IndexError] right after it has fetched the list: no content is
    requested. *)
Theorem run_raises_on_empty_file_list config w d st token response transcription_url
    n final_status links files_url files_response :
  get_token config "https://cognitiveservices.azure.com/.default" = Ok token ->
  post_json w (submit_url config) (payload (get d "uri")) = Ok response ->
  subscript response "self" = Ok transcription_url ->
  first_final stops_on w transcription_url st n final_status ->
  subscript final_status "status" = Ok (VStr "Succeeded") ->
  subscript final_status "links" = Ok links ->
  subscript links "files" = Ok files_url ->
  get_json w (gets st + n + 1) files_url = Ok files_response ->
  subscript files_response "values" = Ok (VList []) ->
  forall fuel, n < fuel ->
    exists st',
      run config w fuel (VDict d) st = Some (Raise IndexError, st') /\
      gets st' = gets st + n + 2.
Proof.
  intros Htok Hpost Hself Hfirst Hsucc H1 H2 H3 H4 fuel Hfuel.
  destruct (run_after_wait config w d st token response transcription_url n final_status
              Htok Hpost Hself Hfirst) with (fuel := fuel) as (st1 & E & G).
  - intros status Hs Hf. rewrite Hsucc in Hs. inversion Hs. subst. discriminate Hf.
  - exact Hfuel.
  - rewrite E. unfold fetch_text, mbind, lift, http_get, requests_get.
    rewrite H1, H2, G.
    replace (gets st + S n) with (gets st + n + 1) by lia. rewrite H3, H4.
    cbn [first_item]. eexists. split; [reflexivity|]. cbn [gets]. lia.
Qed.

Lemma run_raises_on_empty_file_list_witness :
  exists st',
    run plain_config empty_files_world 5 (VDict (blob "call_42.wav")) (initial 0)
      = Some (Raise IndexError, st') /\
    gets st' = 2.
Proof.
  apply (run_raises_on_empty_file_list plain_config empty_files_world
           (blob "call_42.wav") (initial 0) "token"
           (VDict [("self", VStr "https://ai.example/job")])
           (VStr "https://ai.example/job") 0 (status_body "Succeeded")
           (VDict [("files", VStr "https://ai.example/files")])
           (VStr "https://ai.example/files") (VDict [("values", VList [])]));
    try reflexivity.
  - split.
    + exists (VStr "Succeeded"). repeat split.
    + intros m Hm. lia.
  - lia.
Defined.

(** X14.  The activity polls nothing before it has a job: when its input
    is not a dict, or no token is handed out, or the submission raises, or
    its answer holds no job URL under "self", every run, however many polls
    it is allowed, ends at once by raising that exception and has made no
    GET request. *)
Theorem run_polls_only_a_submitted_job config w blob_input st e :
  no_job config w blob_input e ->
  forall fuel,
    run config w fuel blob_input st = Some (Raise e, st).
Proof.
  intros H fuel.
  unfold run. unfold mbind at 1 2 3 4 5 6. unfold lift, method_get, method_get_default.
  destruct H as [[Hnot ->]|(d & -> & H)].
  - destruct blob_input as [| | | | |d]; try reflexivity. now destruct (Hnot d).
  - fold (get d "uri").
    destruct H as [Htok|(token & Htok & H)]; rewrite Htok; [reflexivity|].
    destruct H as [Hpost|(response & Hpost & Hself)]; rewrite Hpost; [reflexivity|].
    now rewrite Hself.
Qed.

Lemma run_polls_only_a_submitted_job_witness :
  run tokenless_config transcribing_world 1000 (VDict (blob "call_42.wav")) (initial 0)
    = Some (Raise RequestException, initial 0) /\
  run plain_config transcribing_world 1000 VNone (initial 0)
    = Some (Raise AttributeError, initial 0).
Proof.
  split.
  - apply (run_polls_only_a_submitted_job tokenless_config transcribing_world
             (VDict (blob "call_42.wav")) (initial 0) RequestException).
    right. exists (blob "call_42.wav"). split; [reflexivity|]. left. reflexivity.
  - apply (run_polls_only_a_submitted_job plain_config transcribing_world
             VNone (initial 0) AttributeError).
    left. split; [intros d; discriminate|reflexivity].
Defined.

End SpeechMore.

(* ===================================================================== *)
(** * More on the document poll loop *)
(* ===================================================================== *)

Module PollFacts.
Import FunctionAppNew DocumentFacts Samples MoreSamples.

Lemma after_polls_next w url n st :
  after_polls w url (S n) st = after_polls w url n (after_poll w url st).
Proof.
  unfold after_polls. apply Nat.iter_succ_r.
Qed.

Lemma after_polls_gets w url n st :
  gets (after_polls w url n st) = gets st + n.
Proof.
  unfold after_polls. induction n as [|n IH].
  - simpl. lia.
  - rewrite Nat.iter_succ.
    unfold after_poll at 1, sleep, requests_get. cbn [gets snd]. lia.
Qed.

Lemma after_poll_clock w url st :
  clock (after_poll w url st) = (clock st + get_latency w (gets st) + 2)%N.
Proof. reflexivity. Qed.

(** The clock never runs backwards, and each turn costs the pause. *)
Lemma after_polls_clock w url n m st :
  m <= n ->
  (clock (after_polls w url m st) + 2 * N.of_nat (n - m)
     <= clock (after_polls w url n st))%N.
Proof.
  intros Hmn. induction n as [|n IH].
  - replace m with 0 by lia. simpl. lia.
  - destruct (Nat.eq_dec m (S n)) as [->|Hne].
    + replace (S n - S n) with 0 by lia. lia.
    + assert (Hle : m <= n) by lia. specialize (IH Hle).
      unfold after_polls in *. rewrite Nat.iter_succ, after_poll_clock.
      replace (S n - m) with (S (n - m)) by lia. lia.
Qed.

(** While the job is still going and the ceiling is not reached, the loop
    goes round. *)
Lemma poll_skips w url start_time :
  forall n st,
    none_final is_final w url st n ->
    (forall m, m < n ->
       (clock (after_polls w url m st) - start_time < max_wait_time)%N) ->
    poll w url start_time st = poll w url start_time (after_polls w url n st).
Proof.
  induction n as [|n IH]; intros st Hnone Hbelow.
  - reflexivity.
  - rewrite after_polls_next, <- IH.
    + rewrite poll_unfold.
      assert (H0 := Hbelow 0 ltac:(lia)). cbn in H0.
      apply N.ltb_lt in H0. rewrite H0. unfold requests_get.
      destruct (Hnone 0) as (b & s & Hb & Hs & Hf); [lia|].
      rewrite Nat.add_0_r in Hb. now rewrite Hb, Hs, Hf.
    + unfold after_poll. apply SpeechMore.none_final_shift_any. exact Hnone.
    + intros m Hm. rewrite <- after_polls_next. apply Hbelow. lia.
Qed.

Lemma below_ceiling_before w url st start_time n :
  (clock (after_polls w url n st) - start_time < max_wait_time)%N ->
  forall m, m < n ->
    (clock (after_polls w url m st) - start_time < max_wait_time)%N.
Proof.
  intros H m Hm. pose proof (after_polls_clock w url n m st ltac:(lia)). lia.
Qed.

(** X15.  Whatever the service answers, the loop makes at most 150
    requests. *)
Theorem poll_makes_at_most_150_requests w url st :
  gets st <= gets (snd (poll_status w url st)) <= gets st + 150.
Proof.
  assert (G : forall k st0 start_time,
             budget start_time st0 <= k ->
             (start_time <= clock st0)%N ->
             gets st0 <= gets (snd (poll w url start_time st0)) /\
             (2 * N.of_nat (gets (snd (poll w url start_time st0)) - gets st0)
                <= max_wait_time - (clock st0 - start_time) + 1)%N).
  { induction k as [|k IH]; intros st0 start_time Hk Hstart; rewrite poll_unfold.
    - assert (E : (clock st0 - start_time <? max_wait_time)%N = false)
        by (apply N.ltb_ge; unfold budget, max_wait_time in *; lia).
      rewrite E. cbn [snd]. split; lia.
    - destruct (clock st0 - start_time <? max_wait_time)%N eqn:C;
        [|cbn [snd]; split; lia].
      apply N.ltb_lt in C.
      assert (One : forall r : report,
                 gets st0 <= gets (snd (r, snd (requests_get w url st0))) /\
                 (2 * N.of_nat (gets (snd (r, snd (requests_get w url st0))) - gets st0)
                    <= max_wait_time - (clock st0 - start_time) + 1)%N).
      { intros r. unfold requests_get. cbn [snd gets].
        unfold max_wait_time in *. split; lia. }
      unfold requests_get.
      destruct (get_json w (gets st0) url) as [body|e]; [|exact (One (Error e))].
      destruct (subscript body "status") as [status|e]; [|exact (One (Error e))].
      destruct (is_final status); [exact (One (final_report status body))|].
      destruct (IH (after_poll w url st0) start_time) as [Hg Hc].
      + unfold budget, after_poll, sleep, requests_get, max_wait_time, poll_interval in *.
        cbn [clock snd] in *. lia.
      + unfold after_poll, sleep, requests_get. cbn [clock snd]. lia.
      + unfold after_poll, sleep, requests_get, max_wait_time, poll_interval in *.
        cbn [clock gets snd] in *. split; lia. }
  unfold poll_status.
  destruct (G (budget (clock st) st) st (clock st)) as [Hg Hc]; [lia|lia|].
  unfold max_wait_time in Hc. split; lia.
Qed.

(** X16.  When the job reaches a final status at a poll that begins before
    the ceiling, after polls that all found it still going, the loop stops
    at that poll and reports what the final status tells; it has made one
    request per poll. *)
Theorem poll_reports_final_status w url st n body status :
  none_final is_final w url st n ->
  get_json w (gets st + n) url = Ok body ->
  subscript body "status" = Ok status ->
  is_final status = true ->
  (clock (after_polls w url n st) - clock st < max_wait_time)%N ->
  exists st',
    poll_status w url st = (final_report status body, st') /\
    gets st' = gets st + S n.
Proof.
  intros Hnone Hget Hstatus Hfinal Hbelow. unfold poll_status.
  rewrite (poll_skips w url (clock st) n st Hnone
             (below_ceiling_before w url st (clock st) n Hbelow)).
  rewrite poll_unfold. apply N.ltb_lt in Hbelow. rewrite Hbelow.
  unfold requests_get. rewrite after_polls_gets, Hget, Hstatus, Hfinal.
  eexists. split; [reflexivity|]. cbn [gets]. lia.
Qed.

Lemma poll_reports_final_status_witness :
  exists st',
    poll_status language_world (VStr "https://lang.example/jobs/1") (initial 0) =
      (JobSucceeded (Redacted (VStr "https://store.example/silver/job-1/bill2.pdf")), st') /\
    gets st' = 3.
Proof.
  apply (poll_reports_final_status language_world (VStr "https://lang.example/jobs/1")
           (initial 0) 2 (job_result "succeeded") (VStr "succeeded")).
  - intros m Hm. exists (status_body "running"), (VStr "running").
    destruct m as [|[|m]]; [repeat split..|lia].
  - reflexivity.
  - reflexivity.
  - reflexivity.
  - vm_compute. reflexivity.
Defined.

(** X17.  When a poll that begins before the ceiling fails (the request
    raises, or its answer has no status), the loop stops there and the
    error is what the function reports: it polls no more. *)
Theorem poll_reports_failing_poll w url st n e :
  none_final is_final w url st n ->
  poll_fails w url st n e ->
  (clock (after_polls w url n st) - clock st < max_wait_time)%N ->
  exists st',
    poll_status w url st = (Error e, st') /\
    gets st' = gets st + S n.
Proof.
  intros Hnone Hfail Hbelow. unfold poll_status.
  rewrite (poll_skips w url (clock st) n st Hnone
             (below_ceiling_before w url st (clock st) n Hbelow)).
  rewrite poll_unfold. apply N.ltb_lt in Hbelow. rewrite Hbelow.
  unfold requests_get. rewrite after_polls_gets.
  destruct Hfail as [Hget|(b & Hget & Hs)]; rewrite Hget; [|rewrite Hs];
    (eexists; split; [reflexivity|cbn [gets]; lia]).
Qed.

Lemma poll_reports_failing_poll_witness :
  exists st',
    poll_status broken_poll_world (VStr "https://lang.example/jobs/1") (initial 0) =
      (Error (KeyError "status"), st') /\
    gets st' = 3.
Proof.
  apply (poll_reports_failing_poll broken_poll_world (VStr "https://lang.example/jobs/1")
           (initial 0) 2 (KeyError "status")).
  - intros m Hm. exists (status_body "Running"), (VStr "Running").
    destruct m as [|[|m]]; [repeat split..|lia].
  - right. eexists. split; reflexivity.
  - vm_compute. reflexivity.
Defined.

(** X18.  A result that comes too late is never read: when the ceiling is
    reached after [n] polls that all found the job still going, the loop
    reports the time-out without another request, whatever the service
    would have answered from then on. *)
Theorem poll_ignores_late_result w url st n :
  none_final is_final w url st n ->
  (forall m, m < n ->
     (clock (after_polls w url m st) - clock st < max_wait_time)%N) ->
  (max_wait_time <= clock (after_polls w url n st) - clock st)%N ->
  poll_status w url st = (TimedOut, after_polls w url n st) /\
  gets (after_polls w url n st) = gets st + n.
Proof.
  intros Hnone Hbelow Hceil. split; [|apply after_polls_gets].
  unfold poll_status. rewrite (poll_skips w url (clock st) n st Hnone Hbelow).
  rewrite poll_unfold. apply N.ltb_ge in Hceil. now rewrite Hceil.
Qed.

Lemma poll_ignores_late_result_witness :
  fst (poll_status late_world (VStr "https://lang.example/jobs/1") (initial 0)) = TimedOut /\
  get_json late_world 3 (VStr "https://lang.example/jobs/1") = Ok (job_result "succeeded").
Proof.
  destruct (poll_ignores_late_result late_world (VStr "https://lang.example/jobs/1")
              (initial 0) 3) as [E _].
  - intros m Hm. exists (status_body "running"), (VStr "running").
    destruct m as [|[|[|m]]]; [repeat split..|lia].
  - intros m Hm. destruct m as [|[|[|m]]]; [vm_compute; reflexivity..|lia].
  - vm_compute. discriminate.
  - rewrite E. split; reflexivity.
Defined.

(** X19.  Of a succeeded job only the first task item and, in it, the
    first document are examined: the artifact is looked for among the
    targets of that document, whatever the other items and documents
    hold. *)
Theorem only_first_document_is_examined job tasks item other_items results
    document other_documents doc targets :
  dict_get job "tasks" = Some (VDict tasks) ->
  dict_get tasks "items" = Some (VList (VDict item :: other_items)) ->
  dict_get item "results" = Some (VDict results) ->
  dict_get results "documents" = Some (VList (document :: other_documents)) ->
  document = VDict doc ->
  dict_get doc "targets" = Some (VList targets) ->
  select_redacted (VDict job) =
  match find_redacted_pdf_url targets with
  | Ok url => if truthy url then Ok (Redacted url) else Ok NoRedactedPdf
  | Raise e => Raise e
  end.
Proof.
  intros Ht Hi Hr Hd -> Hg.
  unfold select_redacted, method_get, method_get_default, get_default, subscript.
  rewrite Ht. cbn [bind]. rewrite Hi. cbn [bind truthy first_item].
  rewrite Hr. cbn [bind]. rewrite Hd. cbn [bind truthy first_item].
  rewrite Hg. cbn [bind iter_items].
  destruct (find_redacted_pdf_url targets); reflexivity.
Qed.

Lemma only_first_document_is_examined_witness :
  select_redacted (job_result "succeeded") =
  Ok (Redacted (VStr "https://store.example/silver/job-1/bill2.pdf")).
Proof.
  unfold job_result. eapply eq_trans.
  - eapply only_first_document_is_examined; reflexivity.
  - reflexivity.
Defined.

(** X20.  A succeeded job that lacks the parts is reported, not raised:
    without tasks, or with an empty list of items, no task item is found;
    with items whose first has no documents, no document is found.  Tasks
    that are present but null raise [AttributeError]. *)
Theorem missing_parts_are_reported job :
  (dict_get job "tasks" = None -> select_redacted (VDict job) = Ok NoTaskItems) /\
  (forall tasks, dict_get job "tasks" = Some (VDict tasks) ->
     (dict_get tasks "items" = None \/ dict_get tasks "items" = Some (VList [])) ->
     select_redacted (VDict job) = Ok NoTaskItems) /\
  (forall tasks item other_items,
     dict_get job "tasks" = Some (VDict tasks) ->
     dict_get tasks "items" = Some (VList (VDict item :: other_items)) ->
     dict_get item "results" = None ->
     select_redacted (VDict job) = Ok NoDocuments) /\
  (dict_get job "tasks" = Some VNone ->
     select_redacted (VDict job) = Raise AttributeError).
Proof.
  unfold select_redacted, method_get, method_get_default, get_default, subscript.
  repeat split.
  - intros H. now rewrite H.
  - intros tasks Ht [Hi|Hi]; rewrite Ht; cbn [bind]; now rewrite Hi.
  - intros tasks item other Ht Hi Hr. rewrite Ht. cbn [bind]. rewrite Hi.
    cbn [bind truthy first_item]. now rewrite Hr.
  - intros H. now rewrite H.
Qed.

Lemma missing_parts_are_reported_witness :
  select_redacted (VDict [("status", VStr "succeeded")]) = Ok NoTaskItems /\
  select_redacted (VDict [("status", VStr "succeeded"); ("tasks", VNone)]) =
    Raise AttributeError.
Proof.
  split.
  - apply (missing_parts_are_reported [("status", VStr "succeeded")]). reflexivity.
  - apply (missing_parts_are_reported [("status", VStr "succeeded"); ("tasks", VNone)]).
    reflexivity.
Defined.

End PollFacts.

(* ===================================================================== *)
(** * The whole of [analyze_document_blob] *)
(* ===================================================================== *)

Module AnalyzeFacts.
Import FunctionAppNew AnalyzeDocumentBlob AnalyzeStated StringFacts SplitFacts
  Samples MoreSamples.

Lemma append_empty_r s : (s ++ "")%string = s.
Proof. induction s as [|c s IH]; simpl; [reflexivity|now rewrite IH]. Qed.

Lemma append_assoc s t u : ((s ++ t) ++ u)%string = (s ++ (t ++ u))%string.
Proof. induction s as [|c s IH]; simpl; [reflexivity|now rewrite IH]. Qed.

(** X21.  Without a language endpoint or without a storage account URL
    (unset, or set to the empty string) the function returns at once: it
    asks for no token, submits nothing and polls nothing. *)
Theorem returns_without_settings svc path st :
  unset svc "LANGUAGE_ENDPOINT" = true \/ unset svc "STORAGE_ACCOUNT_URL" = true ->
  (exists variable,
     fst (fst (analyze_document_blob svc path st)) = SettingMissing variable) /\
  snd (fst (analyze_document_blob svc path st)) = [] /\
  snd (analyze_document_blob svc path st) = st.
Proof.
  intros H. unfold analyze_document_blob.
  destruct (unset svc "LANGUAGE_ENDPOINT").
  - split; [now eexists|]. split; reflexivity.
  - destruct H as [H|H]; [discriminate|]. rewrite H.
    split; [now eexists|]. split; reflexivity.
Qed.

Lemma returns_without_settings_witness :
  analyze_document_blob unconfigured_service "bronze/bill2.pdf" (initial 0) =
  (SettingMissing "LANGUAGE_ENDPOINT", [], initial 0).
Proof.
  destruct (returns_without_settings unconfigured_service "bronze/bill2.pdf" (initial 0))
    as ([v Hv] & He & Hs).
  - left. reflexivity.
  - reflexivity.
Defined.

(** X22.  The function polls only a job that was accepted: whenever a run
    has made a GET request, both settings were there, the token was
    obtained, and the submission the function itself made (its own URL and
    body) was answered 202 with an operation-location header.  When that
    submission is answered with any other code, nothing is polled. *)
Theorem polls_only_an_accepted_job svc path st :
  (gets st < gets (snd (analyze_document_blob svc path st)) ->
   unset svc "LANGUAGE_ENDPOINT" = false /\
   unset svc "STORAGE_ACCOUNT_URL" = false /\
   exists token response operation_url,
     language_token svc = Ok token /\
     post svc (job_url svc) (job_body svc path) = Ok response /\
     status_code response = 202 /\
     header (headers response) "operation-location" = Ok operation_url) /\
  (forall response,
     post svc (job_url svc) (job_body svc path) = Ok response ->
     status_code response <> 202 ->
     snd (analyze_document_blob svc path st) = st).
Proof.
  unfold analyze_document_blob, job_url, job_body.
  destruct (unset svc "LANGUAGE_ENDPOINT");
    [split; [cbn [snd]; lia|reflexivity]|].
  destruct (unset svc "STORAGE_ACCOUNT_URL");
    [split; [cbn [snd]; lia|reflexivity]|].
  destruct (language_token svc) as [token|e] eqn:Htok;
    [|split; [cbn [snd]; lia|reflexivity]].
  match goal with
  | |- context [post svc ?u ?b] => destruct (post svc u b) as [response|e] eqn:Hpost
  end; [|split; [cbn [snd]; lia|reflexivity]].
  destruct (status_code response =? 202)%nat eqn:Hcode; cbn [negb].
  - apply Nat.eqb_eq in Hcode. split.
    + destruct (header (headers response) "operation-location") as [operation_url|e] eqn:Hh;
        [|cbn [snd]; lia].
      intros _. split; [reflexivity|]. split; [reflexivity|].
      exists token, response, operation_url.
      split; [reflexivity|]. split; [reflexivity|]. split; [exact Hcode|exact Hh].
    + intros response' Hr Hne. inversion Hr. subst response'. contradiction.
  - split.
    + destruct (raises_for_status (status_code response)); cbn [snd]; lia.
    + intros _ _ _. destruct (raises_for_status (status_code response)); reflexivity.
Qed.

Lemma polls_only_an_accepted_job_witness :
  (exists response,
     post language_service (job_url language_service)
          (job_body language_service "bronze/dir/bill2.pdf") = Ok response /\
     status_code response = 202) /\
  snd (analyze_document_blob (answering_service 500) "bronze/dir/bill2.pdf" (initial 0))
    = initial 0.
Proof.
  split.
  - destruct (proj1 (polls_only_an_accepted_job language_service
                       "bronze/dir/bill2.pdf" (initial 0)))
      as (_ & _ & token & response & url & _ & Hp & Hc & _).
    + vm_compute. lia.
    + exists response. split; assumption.
  - apply (proj2 (polls_only_an_accepted_job (answering_service 500)
                    "bronze/dir/bill2.pdf" (initial 0))
                 {| status_code := 500;
                    headers := [("operation-location", "https://lang.example/jobs/1")] |}).
    + reflexivity.
    + discriminate.
Defined.

(** X23.  The folders of the blob path are dropped: for a path that ends
    in [/f], the job is submitted for the source location made of the
    storage URL, the source container and [f] alone, and its results are
    directed to the target container. *)
Theorem source_location_drops_folders svc folders f st token :
  unset svc "LANGUAGE_ENDPOINT" = false ->
  unset svc "STORAGE_ACCOUNT_URL" = false ->
  language_token svc = Ok token ->
  contains_char "/" f = false ->
  let storage := environ_get svc "STORAGE_ACCOUNT_URL" "" in
  snd (fst (analyze_document_blob svc (folders ++ "/" ++ f) st)) =
  [TokenRequested;
   JobSubmitted
     (submit_url (environ_get svc "LANGUAGE_ENDPOINT" ""))
     (payload f
        (storage ++ "/" ++ environ_get svc "SOURCE_CONTAINER" "bronze" ++ "/" ++ f)
        (storage ++ "/" ++ environ_get svc "TARGET_CONTAINER" "silver"))].
Proof.
  intros Hl Hs Ht Hf storage. unfold analyze_document_blob.
  rewrite Hl, Hs, Ht. unfold blob_name_of.
  change (folders ++ "/" ++ f)%string with (folders ++ String "/" f)%string.
  rewrite (last_segment_after "/" folders f Hf). fold storage.
  match goal with
  | |- context [post svc ?u ?b] => destruct (post svc u b) as [response|e]
  end; [|reflexivity].
  destruct (negb (status_code response =? 202)%nat).
  - destruct (raises_for_status (status_code response)); reflexivity.
  - destruct (header (headers response) "operation-location"); [|reflexivity].
    match goal with
    | |- context [poll_status ?w ?u ?s] => destruct (poll_status w u s) as [r st']
    end.
    destruct r as [[| | |u]| | | |]; reflexivity.
Qed.

Lemma source_location_drops_folders_witness :
  snd (fst (analyze_document_blob language_service "bronze/2024/bill2.pdf" (initial 0))) =
  [TokenRequested;
   JobSubmitted
     "https://lang.example/language/analyze-documents/jobs?api-version=2024-11-15-preview"
     (payload "bill2.pdf" "https://store.example/bronze/bill2.pdf"
        "https://store.example/silver")].
Proof.
  apply (source_location_drops_folders language_service "bronze/2024" "bill2.pdf"
           (initial 0) "token"); reflexivity.
Defined.

(** X24.  A blob name without a dot is not renamed: the redacted copy at
    the root of the target container gets the very name of the blob,
    without the [_redacted] mark. *)
Theorem dotless_name_is_kept blob_name :
  contains_char "." blob_name = false ->
  new_blob_name_of blob_name = blob_name.
Proof.
  intros H. unfold new_blob_name_of. rewrite H. cbn [append py_replace].
  apply replace_at_none. now apply partition_without_head.
Qed.

Lemma dotless_name_is_kept_witness : new_blob_name_of "README" = "README".
Proof. apply (dotless_name_is_kept "README"). reflexivity. Defined.

(** X25.  A name with exactly one dot, [stem.ext], is renamed
    [stem_redacted.ext]; the case of the extension is kept, and an empty
    extension (a name that ends with its only dot) gives [stem_redacted.]. *)
Theorem single_dot_name_is_marked stem ext :
  contains_char "." stem = false ->
  contains_char "." ext = false ->
  new_blob_name_of (stem ++ "." ++ ext) = (stem ++ "_redacted." ++ ext)%string.
Proof.
  intros Hs He. unfold new_blob_name_of.
  rewrite contains_char_app. cbn [append contains_char Ascii.eqb Bool.eqb].
  rewrite orb_true_r.
  rewrite (last_segment_after "." stem ext He). cbn [append py_replace].
  rewrite <- (append_empty_r ext) at 3.
  rewrite (replace_at_some "." ext _ _ stem "" (partition_at_head "." ext stem "" Hs)).
  rewrite replace_at_none by reflexivity.
  now rewrite append_empty_r.
Qed.

Lemma single_dot_name_is_marked_witness :
  new_blob_name_of "Bill2.PDF" = "Bill2_redacted.PDF".
Proof. apply (single_dot_name_is_marked "Bill2" "PDF"); reflexivity. Defined.

(** X26.  The replacement is not confined to the end of the name: in a
    name where the dotted extension occurs twice, [stem.ext.ext], both
    occurrences are marked. *)
Theorem repeated_extension_is_marked_twice stem ext :
  contains_char "." stem = false ->
  contains_char "." ext = false ->
  new_blob_name_of (stem ++ "." ++ ext ++ "." ++ ext) =
  (stem ++ "_redacted." ++ ext ++ "_redacted." ++ ext)%string.
Proof.
  intros Hs He. unfold new_blob_name_of.
  rewrite contains_char_app. cbn [append contains_char Ascii.eqb Bool.eqb].
  rewrite orb_true_r.
  replace (stem ++ String "." (ext ++ String "." ext))%string
    with ((stem ++ String "." ext) ++ String "." ext)%string
    by (rewrite append_assoc; reflexivity).
  rewrite (last_segment_after "." (stem ++ String "." ext) ext He).
  cbn [append py_replace]. rewrite append_assoc. cbn [append].
  rewrite (replace_at_some "." ext _ _ stem (String "." ext)
             (partition_at_head "." ext stem (String "." ext) Hs)).
  assert (P : partition (String "." ext) (String "." ext) = Some ("", "")).
  { pose proof (partition_at_head "." ext "" "" eq_refl) as P.
    cbn [append] in P. now rewrite append_empty_r in P. }
  rewrite (replace_at_some "." ext _ _ "" "" P).
  rewrite replace_at_none by reflexivity.
  cbn [append]. now rewrite append_empty_r.
Qed.

Lemma repeated_extension_is_marked_twice_witness :
  new_blob_name_of "scan.pdf.pdf" = "scan_redacted.pdf_redacted.pdf".
Proof. apply (repeated_extension_is_marked_twice "scan" "pdf"); reflexivity. Defined.

(** X27.  The path of the redacted file is what follows the URL of the
    target container in its location; a location that does not lie under
    that URL makes the move raise [IndexError], which the function logs as
    an unexpected error: nothing is moved. *)
Theorem blob_path_is_relative_to_target storage target_container blob_name :
  (forall path,
     (forall a b, path <> (a ++ (storage ++ "/" ++ target_container ++ "/") ++ b)%string) ->
     move_plan storage target_container blob_name
       (VStr (storage ++ "/" ++ target_container ++ "/" ++ path)) =
     Moved path (new_blob_name_of blob_name)) /\
  (forall url,
     (forall a b, url <> (a ++ (storage ++ "/" ++ target_container ++ "/") ++ b)%string) ->
     move_plan storage target_container blob_name (VStr url) =
     UnexpectedError IndexError).
Proof.
  assert (Hsep : exists c sep,
             (storage ++ "/" ++ target_container ++ "/")%string = String c sep).
  { destruct storage as [|c s]; cbn [append]; eexists _, _; reflexivity. }
  destruct Hsep as (c & sep & Hsep).
  split.
  - intros path Hno. unfold move_plan, blob_path_of.
    replace (storage ++ "/" ++ target_container ++ "/" ++ path)%string
      with ((storage ++ "/" ++ target_container ++ "/") ++ path)%string
      by (rewrite (append_assoc storage), (append_assoc "/"),
            (append_assoc target_container); reflexivity).
    rewrite Hsep in *. cbn [py_split bind].
    assert (P : partition (String c sep) (String c sep ++ path) = Some ("", path)).
    { cbn [append partition strip_prefix]. now rewrite Ascii.eqb_refl, strip_prefix_app. }
    rewrite (split_at_some c sep _ "" path P).
    rewrite (split_at_none c sep path (partition_none _ _ Hno)).
    reflexivity.
  - intros url Hno. unfold move_plan, blob_path_of.
    rewrite Hsep in *. cbn [py_split bind].
    rewrite (split_at_none c sep url (partition_none _ _ Hno)).
    reflexivity.
Qed.

Lemma blob_path_is_relative_to_target_witness :
  move_plan "https://store.example" "silver" "bill2.pdf"
    (VStr "https://elsewhere.example/x.pdf") = UnexpectedError IndexError.
Proof.
  apply (blob_path_is_relative_to_target "https://store.example" "silver" "bill2.pdf").
  intros a b H.
  assert (P : partition "https://store.example/silver/" "https://elsewhere.example/x.pdf"
              = None) by reflexivity.
  rewrite H in P. exact (partition_finds "https://store.example/silver/" a b P).
Defined.

End AnalyzeFacts.

(* ===================================================================== *)
(** * The script [testing/test.py] *)
(* ===================================================================== *)

Module ScriptFacts.
Import FunctionAppNew TestScript Samples MoreSamples.

(** X28.  On a succeeded job the script and the function find the same
    thing: the script holds an artifact exactly when the function reports
    that artifact, and raises exactly when the function logs that error. *)
Theorem script_and_function_agree status job :
  is_str status "succeeded" = true ->
  (forall url, search status job = Ok (Artifact url) <->
               final_report status job = JobSucceeded (Redacted url)) /\
  (forall e, search status job = Raise e <-> final_report status job = Error e).
Proof.
  intros Hs.
  assert (E : search status job =
              match select_redacted job with
              | Ok (Redacted url) => Ok (Artifact url)
              | Ok _ => Ok Nothing
              | Raise e => Raise e
              end).
  { unfold search, select_redacted. rewrite Hs.
    repeat match goal with
           | |- context [bind ?x _] =>
               match x with
               | bind _ _ => fail 1
               | _ => destruct x; cbn [bind]; try reflexivity
               end
           | |- context [if truthy ?v then _ else _] =>
               destruct (truthy v); try reflexivity
           end. }
  unfold final_report. rewrite Hs, E.
  destruct (select_redacted job) as [[| | |u]|e]; split; intros x; split; intros H;
    try discriminate; inversion H; reflexivity.
Qed.

Lemma script_and_function_agree_witness :
  search (VStr "succeeded") (job_result "succeeded") =
    Ok (Artifact (VStr "https://store.example/silver/job-1/bill2.pdf")) <->
  final_report (VStr "succeeded") (job_result "succeeded") =
    JobSucceeded (Redacted (VStr "https://store.example/silver/job-1/bill2.pdf")).
Proof.
  apply (script_and_function_agree (VStr "succeeded") (job_result "succeeded")).
  reflexivity.
Defined.

(** X29.  The loop of the script has no ceiling: it returns what it finds
    at the first poll that tells a final status, however late that poll
    comes, having paused 2 time units after each earlier poll. *)
Theorem script_waits_as_long_as_it_takes w url :
  forall n st body status,
    none_final is_final w url st n ->
    get_json w (gets st + n) url = Ok body ->
    subscript body "status" = Ok status ->
    is_final status = true ->
    forall fuel, n < fuel ->
      exists st',
        poll_loop w fuel url st = Some (search status body, st') /\
        gets st' = gets st + S n /\
        sleeps st' = (repeat 2%N n ++ sleeps st)%list.
Proof.
  induction n as [|n IH]; intros st body status Hnone Hget Hstatus Hfinal fuel Hfuel.
  - destruct fuel as [|fuel]; [lia|]. rewrite Nat.add_0_r in Hget.
    cbn [poll_loop]. unfold requests_get. rewrite Hget, Hstatus, Hfinal.
    eexists. split; [reflexivity|]. cbn [gets sleeps]. split; [lia|reflexivity].
  - destruct fuel as [|fuel]; [lia|].
    destruct (Hnone 0) as (b & s & Hb & Hs & Hf); [lia|].
    rewrite Nat.add_0_r in Hb.
    cbn [poll_loop]. unfold requests_get at 1. rewrite Hb, Hs, Hf.
    match goal with
    | |- context [poll_loop w fuel url ?s2] => set (st2 := s2)
    end.
    destruct (IH st2 body status) with (fuel := fuel) as (st' & E & Hg & Hsl).
    + intros m Hm. destruct (Hnone (S m)) as (b' & s' & Hb' & Hs' & Hf'); [lia|].
      exists b', s'. subst st2. cbn [sleep gets].
      replace (S (gets st) + m) with (gets st + S m) by lia. repeat split; assumption.
    + subst st2. cbn [sleep gets].
      replace (S (gets st) + n) with (gets st + S n) by lia. exact Hget.
    + exact Hstatus.
    + exact Hfinal.
    + lia.
    + exists st'. split; [exact E|]. subst st2. cbn [sleep gets sleeps] in *.
      split; [lia|]. rewrite Hsl. apply SpeechFacts.repeat_shift.
Qed.

Lemma script_waits_as_long_as_it_takes_witness :
  exists st',
    poll_loop late_world 9 (VStr "https://lang.example/jobs/1") (initial 0) =
      Some (Ok (Artifact (VStr "https://store.example/silver/job-1/bill2.pdf")), st') /\
    gets st' = 4 /\ sleeps st' = [2%N; 2%N; 2%N].
Proof.
  apply (script_waits_as_long_as_it_takes late_world (VStr "https://lang.example/jobs/1")
           3 (initial 0) (job_result "succeeded") (VStr "succeeded")).
  - intros m Hm. exists (status_body "running"), (VStr "running").
    destruct m as [|[|[|m]]]; [repeat split..|lia].
  - reflexivity.
  - reflexivity.
  - reflexivity.
  - lia.
Defined.

End ScriptFacts.
